(** * Confluence PDF downloader: a shallow embedding and its properties

    The development follows [helper-scripts/confluence_pdf_downloader.py].
    The class [ConfluenceDownloader] becomes a record, its methods become
    functions in a state-and-exception monad over a [world] made of the
    files of the output directory, a counter of the calls made to the
    outside and the trace of everything the run did.  The remote service,
    the file system's willingness to accept a write and the WeasyPrint
    renderer are oracles gathered in an environment [Env].

    Conventions of the embedding:
    - a Python [str] is a list of Unicode code points ([list N]), so that
      [len], slicing and [strip] count and classify characters the way
      Python does; [bytes] is a list of bytes;
    - a decoded JSON document is a record of the members the program reads
      ([results], [body.export_view.value]), each optional, with the types
      the REST schema gives them;
    - exceptions are classified by the [except] clauses of the source:
      [RequestException], [ImportError] and any other [Exception];
      asynchronous interrupts are outside the model;
    - paths are compared as strings, [output_dir / name] being
      [output_dir ++ "/" ++ name]; the file map holds the files of the
      output directory, not the directories themselves nor the log file;
    - the [while True] loop of the listing takes fuel, and a method that
      runs out of it returns [OutOfFuel]. *)

From Stdlib Require Import ZArith NArith Lia String Ascii.
From stdpp Require Import base tactics option list gmap.

Local Open Scope Z_scope.

(* ===================================================================== *)
(** ** Python strings *)
(* ===================================================================== *)

Module PyStr.

Definition str : Type := list N.
Definition bytes : Type := list Byte.byte.

(** A literal of the source, character by character. *)
Definition py (s : string) : str :=
  map N_of_ascii (list_ascii_of_string s).

Definition quote : str := [34%N].
Definition newline : str := [10%N].
Definition underscore : N := 95%N.

(** [str.isspace] on one code point, the set [str.strip()] removes. *)
Definition is_space (c : N) : bool :=
  ((9 <=? c) && (c <=? 13) || (28 <=? c) && (c <=? 32) || (c =? 133)
   || (c =? 160) || (c =? 5760) || (8192 <=? c) && (c <=? 8202)
   || (c =? 8232) || (c =? 8233) || (c =? 8239) || (c =? 8287)
   || (c =? 12288))%N.

Fixpoint lstrip_by (p : N -> bool) (s : str) : str :=
  match s with
  | [] => []
  | c :: s' => if p c then lstrip_by p s' else s
  end.

Definition rstrip_by (p : N -> bool) (s : str) : str :=
  reverse (lstrip_by p (reverse s)).

(** [s.strip()] *)
Definition strip (s : str) : str := lstrip_by is_space (rstrip_by is_space s).

(** [s.rstrip('/')] *)
Definition rstrip_slash (s : str) : str := rstrip_by (N.eqb 47) s.

(** [s.replace(old, new)] for a one-character [old] and [new]. *)
Definition replace_char (old new : N) (s : str) : str :=
  map (fun c => if (c =? old)%N then new else c) s.

(** [s.startswith(p)] *)
Fixpoint startswith (s p : str) {struct p} : bool :=
  match p, s with
  | [], _ => true
  | _ :: _, [] => false
  | a :: p', b :: s' => (a =? b)%N && startswith s' p'
  end.

(** [s[:n]] *)
Definition slice_to (n : nat) (s : str) : str := take n s.

(** The lines of a multi-line literal, joined by line feeds. *)
Fixpoint unlines (ls : list str) : str :=
  match ls with
  | [] => []
  | [l] => l
  | l :: ls' => l ++ newline ++ unlines ls'
  end.

End PyStr.
Export PyStr.

(* ===================================================================== *)
(** ** File names *)
(* ===================================================================== *)

(** [invalid_chars]: less-than, greater-than, colon, double quote, slash,
    backslash, vertical bar, question mark and asterisk, in this order. *)
Definition invalid_chars : str := py "<>:" ++ quote ++ py "/\|?*".

(** [sanitize_filename]: the loop over [invalid_chars], then
    [filename.strip()[:200]]. *)
Definition sanitize_filename (filename : str) : str :=
  let filename :=
    fold_left (fun filename char => replace_char char underscore filename)
              invalid_chars filename in
  slice_to 200 (strip filename).

(** The sanitisation as the specification words it: every character of the
    unsafe set becomes an underscore, the result is trimmed, then capped. *)
Definition is_unsafe (c : N) : bool :=
  existsb (N.eqb c) invalid_chars.

Definition sanitize_spec (title : str) : str :=
  take 200 (strip (map (fun c => if is_unsafe c then underscore else c) title)).

(* ===================================================================== *)
(** ** Data exchanged with the outside *)
(* ===================================================================== *)

(** A page dictionary of the listing, with the two keys the program reads:
    [page['id']] and [page['title']]. *)
Record Page : Type := mkPage { page_id : str; page_title : str }.

(** The classes of exception the [except] clauses of the source tell apart. *)
Inductive exn : Type := RequestException | ImportError | OtherException.

Definition is_RequestException (e : exn) : bool :=
  match e with RequestException => true | _ => false end.

Definition is_ImportError (e : exn) : bool :=
  match e with ImportError => true | _ => false end.

(** [except Exception] *)
Definition is_Exception (e : exn) : bool := true.

(** The decoded JSON object, by the members the program looks up. *)
Record export_view_obj : Type := mkExportView { value : option str }.
Record body_obj : Type := mkBody { export_view : option export_view_obj }.
Record json_doc : Type :=
  mkDoc { results : option (list Page); body : option body_obj }.

Inductive json_result : Type :=
  | JsonRaises (e : exn)
  | JsonDoc (d : json_doc).

(** A [requests.Response]: [status_code], [headers.get('content-type')],
    [content] and what [json()] does. *)
Record response : Type := mkResponse {
  status_code : Z;
  content_type : option str;
  content : bytes;
  json : json_result
}.

Inductive param : Type := PStr (s : str) | PInt (z : Z).

Record request : Type := mkRequest { url : str; params : list (str * param) }.

Inductive get_result : Type :=
  | GetRaises (e : exn)
  | GetResponse (r : response).

Inductive file_content : Type :=
  | Binary (b : bytes)
  | Text (s : str).

(** [open(path, mode)] then [f.write(data)]: done, or an exception that
    leaves either no file ([open] raised) or a file with what got through. *)
Inductive write_result : Type :=
  | WriteOk
  | WriteRaises (left : option file_content).

(** [from weasyprint import HTML] then [HTML(...).write_pdf(path)]. *)
Inductive render_result : Type :=
  | ImportFails
  | RenderRaises (left : option bytes)
  | RenderOk (pdf : bytes).

Inductive level : Type := DEBUG | INFO | WARNING | ERROR.

(** The log lines of the modelled methods, one constructor per template,
    carrying the values the template interpolates. *)
Inductive message : Type :=
  | MsgFetched (n total : nat)
  | MsgErrorFetchingPages (e : exn)
  | MsgTotalPagesFound (n : nat)
  | MsgExportMethod1Failed (e : exn)
  | MsgExportMethod2Failed (e : exn)
  | MsgErrorFetchingHtml (pid : str) (e : exn)
  | MsgWeasyPrintNotInstalled
  | MsgErrorConverting (e : exn)
  | MsgDownloadingPage (title pid : str)
  | MsgFileExists (filename : str)
  | MsgDownloadedPdf (filename : str)
  | MsgErrorSavingPdf (filename : str) (e : exn)
  | MsgTryingHtml (title : str)
  | MsgConvertedHtml (filename : str)
  | MsgSavedAsHtml (filename : str)
  | MsgErrorSavingHtml (filename : str) (e : exn)
  | MsgFailedToDownload (title : str)
  | MsgStarting (space : str)
  | MsgNoPagesFound
  | MsgProcessing (i n : nat)
  | MsgCompleted
  | MsgSuccessful (n : nat)
  | MsgFailed (n : nat)
  | MsgFilesSavedTo (dir : str).

(** What a run does, in order, with what the outside answered. *)
Inductive event : Type :=
  | EvGet (r : request) (res : get_result)
  | EvSleep (ms : N)
  | EvLog (l : level) (m : message)
  | EvWrite (path : str) (c : file_content) (res : write_result)
  | EvRender (html base path : str) (res : render_result).

(** The outside: each oracle answers from the number of calls made to the
    outside so far and the arguments of the call. *)
Record Env : Type := mkEnv {
  env_get : nat -> request -> get_result;
  env_write : nat -> str -> file_content -> write_result;
  env_render : nat -> str -> str -> str -> render_result
}.

(** The files of the output directory, the call counter and the trace. *)
Record world : Type := mkWorld {
  fs : gmap str file_content;
  clock : nat;
  trace : list event
}.

(* ===================================================================== *)
(** ** The monad of the methods *)
(* ===================================================================== *)

Inductive result (A : Type) : Type :=
  | Ok (a : A)
  | Raise (e : exn)
  | OutOfFuel.
Arguments Ok {A} a.
Arguments Raise {A} e.
Arguments OutOfFuel {A}.

Definition M (A : Type) : Type := world -> result A * world.

Definition ret {A} (a : A) : M A := fun w => (Ok a, w).

Definition bind {A B} (m : M A) (k : A -> M B) : M B :=
  fun w =>
    match m w with
    | (Ok a, w') => k a w'
    | (Raise e, w') => (Raise e, w')
    | (OutOfFuel, w') => (OutOfFuel, w')
    end.

Definition raise {A} (e : exn) : M A := fun w => (Raise e, w).

Definition out_of_fuel {A} : M A := fun w => (OutOfFuel, w).

(** [try: m  except <class> as e: handler e] *)
Definition try_except {A} (m : M A) (catches : exn -> bool)
    (handler : exn -> M A) : M A :=
  fun w =>
    match m w with
    | (Raise e, w') => if catches e then handler e w' else (Raise e, w')
    | r => r
    end.

#[export] Instance M_ret : MRet M := @ret.
#[export] Instance M_bind : MBind M := fun A B k m => bind m k.

Definition emit (ev : event) (w : world) : world :=
  {| fs := fs w; clock := clock w; trace := trace w ++ [ev] |}.

Definition tick (w : world) : world :=
  {| fs := fs w; clock := S (clock w); trace := trace w |}.

Definition set_file (path : str) (c : file_content) (w : world) : world :=
  {| fs := <[path := c]> (fs w); clock := clock w; trace := trace w |}.

(** [logger.debug / info / warning / error] *)
Definition log (l : level) (m : message) : M unit :=
  fun w => (Ok tt, emit (EvLog l m) w).

(** [time.sleep] *)
Definition sleep (ms : N) : M unit :=
  fun w => (Ok tt, emit (EvSleep ms) w).

(** [self.session.get(url, params=params)] *)
Definition session_get (E : Env) (u : str) (ps : list (str * param))
  : M response :=
  fun w =>
    let req := mkRequest u ps in
    let res := env_get E (clock w) req in
    let w' := tick (emit (EvGet req res) w) in
    match res with
    | GetRaises e => (Raise e, w')
    | GetResponse r => (Ok r, w')
    end.

(** [response.raise_for_status()]: an [HTTPError] for 4xx and 5xx. *)
Definition raise_for_status (r : response) : M unit :=
  if (400 <=? status_code r) && (status_code r <? 600)
  then raise RequestException else ret tt.

(** [response.json()] *)
Definition response_json (r : response) : M json_doc :=
  match json r with
  | JsonRaises e => raise e
  | JsonDoc d => ret d
  end.

(** [output_path.exists()] *)
Definition path_exists (path : str) : M bool :=
  fun w => (Ok (bool_decide (is_Some (fs w !! path))), w).

(** [with open(path, mode) as f: f.write(data)] *)
Definition write_file (E : Env) (path : str) (c : file_content) : M unit :=
  fun w =>
    let res := env_write E (clock w) path c in
    let w' := tick (emit (EvWrite path c res) w) in
    match res with
    | WriteOk => (Ok tt, set_file path c w')
    | WriteRaises None => (Raise OtherException, w')
    | WriteRaises (Some c') => (Raise OtherException, set_file path c' w')
    end.

(** [from weasyprint import HTML] and
    [HTML(string=html, base_url=base).write_pdf(str(path))] *)
Definition weasyprint_write_pdf (E : Env) (html base path : str) : M unit :=
  fun w =>
    let res := env_render E (clock w) html base path in
    let w' := tick (emit (EvRender html base path res) w) in
    match res with
    | ImportFails => (Raise ImportError, w')
    | RenderRaises None => (Raise OtherException, w')
    | RenderRaises (Some b) => (Raise OtherException, set_file path (Binary b) w')
    | RenderOk pdf => (Ok tt, set_file path (Binary pdf) w')
    end.

(* ===================================================================== *)
(** ** The class [ConfluenceDownloader] *)
(* ===================================================================== *)

Record ConfluenceDownloader : Type := mkDownloader {
  base_url : str;
  username : str;
  api_token : str;
  space_key : str;
  output_dir : str
}.

(** [__init__], for the attributes the methods read; the two [mkdir] calls
    create directories, which the file map does not hold. *)
Definition init (base_url username api_token space_key : str)
  : ConfluenceDownloader :=
  {| base_url := rstrip_slash base_url;
     username := username;
     api_token := api_token;
     space_key := space_key;
     output_dir := py "data/confluence_" ++ space_key |}.

(** [self.output_dir / name] *)
Definition in_output_dir (self : ConfluenceDownloader) (name : str) : str :=
  output_dir self ++ py "/" ++ name.

Section Methods.

Context (E : Env) (self : ConfluenceDownloader).

(** *** [get_space_pages] *)

Definition listing_url : str := base_url self ++ py "/wiki/rest/api/content".

Definition listing_params (limit start : Z) : list (str * param) :=
  [ (py "spaceKey", PStr (space_key self));
    (py "type", PStr (py "page"));
    (py "status", PStr (py "current"));
    (py "limit", PInt limit);
    (py "start", PInt start);
    (py "expand", PStr (py "space,version,ancestors")) ].

(** How one turn of [while True] ends: [break], or the next turn with the
    new [start]; both carry the list [pages] as the turn left it. *)
Inductive turn : Type :=
  | Break (pages : list Page)
  | Continue (pages : list Page) (start : Z).

(** The body of the loop.  Nothing after [pages.extend] raises, so the
    handler sees [pages] as it was when the turn began. *)
Definition get_space_pages_turn (limit : Z) (pages : list Page) (start : Z)
  : M turn :=
  try_except
    (response ← session_get E listing_url (listing_params limit start);
     raise_for_status response;;
     data ← response_json response;
     let current_pages := default [] (results data) in
     let pages := pages ++ current_pages in
     log INFO (MsgFetched (length current_pages) (length pages));;
     if Z.of_nat (length current_pages) <? limit
     then mret (Break pages)
     else
       let start := start + limit in
       sleep 500;;
       mret (Continue pages start))
    is_RequestException
    (fun e => log ERROR (MsgErrorFetchingPages e);; mret (Break pages)).

Fixpoint get_space_pages_loop (fuel : nat) (limit : Z) (pages : list Page)
    (start : Z) : M (list Page) :=
  match fuel with
  | O => out_of_fuel
  | S fuel' =>
      t ← get_space_pages_turn limit pages start;
      match t with
      | Break pages => mret pages
      | Continue pages start => get_space_pages_loop fuel' limit pages start
      end
  end.

Definition get_space_pages (fuel : nat) (limit : Z) : M (list Page) :=
  pages ← get_space_pages_loop fuel limit [] 0;
  log INFO (MsgTotalPagesFound (length pages));;
  mret pages.

(** *** [get_page_content_as_pdf] *)

Definition export_url_1 : str :=
  base_url self ++ py "/wiki/spaces/" ++ space_key self
  ++ py "/pdfpageexport.action".

Definition export_params_1 (page_id : str) : list (str * param) :=
  [ (py "pageId", PStr page_id) ].

Definition export_url_2 : str := base_url self ++ py "/wiki/exportword".

Definition export_params_2 (page_id : str) : list (str * param) :=
  [ (py "pageId", PStr page_id); (py "exportType", PStr (py "PDF")) ].

(** [response.status_code == 200 and
     response.headers.get('content-type', '').startswith('application/pdf')] *)
Definition is_pdf_response (r : response) : bool :=
  (status_code r =? 200)
  && startswith (default [] (content_type r)) (py "application/pdf").

(** One [try] block of the method: [Some] is the value it returns, [None]
    is falling through to the code after it. *)
Definition try_export (u : str) (ps : list (str * param))
    (failed : exn -> message) : M (option bytes) :=
  try_except
    (response ← session_get E u ps;
     if is_pdf_response response
     then mret (Some (content response))
     else mret None)
    is_Exception
    (fun e => log DEBUG (failed e);; mret None).

Definition get_page_content_as_pdf (page_id : str) : M (option bytes) :=
  r ← try_export export_url_1 (export_params_1 page_id) MsgExportMethod1Failed;
  match r with
  | Some pdf => mret (Some pdf)
  | None =>
      r ← try_export export_url_2 (export_params_2 page_id)
            MsgExportMethod2Failed;
      match r with
      | Some pdf => mret (Some pdf)
      | None => mret None
      end
  end.

(** *** [get_page_html_content] *)

Definition content_url (page_id : str) : str :=
  base_url self ++ py "/wiki/rest/api/content/" ++ page_id.

Definition content_params : list (str * param) :=
  [ (py "expand", PStr (py "body.export_view,space,version,ancestors")) ].

(** [data.get('body', {}).get('export_view', {}).get('value', '')] *)
Definition html_of_doc (data : json_doc) : str :=
  default [] (value (default (mkExportView None)
                       (export_view (default (mkBody None) (body data))))).

Definition get_page_html_content (page_id : str) : M (option str) :=
  try_except
    (response ← session_get E (content_url page_id) content_params;
     raise_for_status response;;
     data ← response_json response;
     let html_content := html_of_doc data in
     mret (Some html_content))
    is_RequestException
    (fun e => log ERROR (MsgErrorFetchingHtml page_id e);; mret None).

(** *** [html_to_pdf] *)

(** The document template of [styled_html], before and after the
    interpolated [html_content]. *)
Definition styled_html_head : str :=
  unlines
    [ [];
      py "            <html>";
      py "            <head>";
      py "                <meta charset=" ++ quote ++ py "UTF-8" ++ quote ++ py ">";
      py "                <style>";
      py "                    body { font-family: Arial, sans-serif; line-height: 1.6; }";
      py "                    .page-title { font-size: 24px; font-weight: bold; margin-bottom: 20px; }";
      py "                    .content { max-width: 100%; }";
      py "                    img { max-width: 100%; height: auto; }";
      py "                    /* Force table to fit page using scale if too wide */";
      py "                    .table-wrapper {";
      py "                        width: 100%;";
      py "                        overflow-x: auto;";
      py "                        margin-bottom: 1em;";
      py "                        /* PDF hack: scale down wide tables */";
      py "                        display: block;";
      py "                    }";
      py "                    table {";
      py "                        border-collapse: collapse;";
      py "                        width: 100%;";
      py "                        font-size: 8px;";
      py "                        table-layout: fixed;";
      py "                        min-width: 600px;";
      py "                        max-width: 100vw;";
      py "                        overflow-x: auto;";
      py "                        display: block;";
      py "                        /* If table is too wide, scale it down */";
      py "                        transform: scale(0.7);";
      py "                        transform-origin: left top;";
      py "                    }";
      py "                    th, td {";
      py "                        border: 1px solid #ddd;";
      py "                        padding: 2px 4px;";
      py "                        text-align: left;";
      py "                        word-break: break-all;";
      py "                        white-space: pre-line;";
      py "                        max-width: 100px;";
      py "                        overflow: hidden;";
      py "                        text-overflow: ellipsis;";
      py "                    }";
      py "                    th {";
      py "                        background-color: #f2f2f2;";
      py "                        font-size: 8px;";
      py "                        /* Uncomment to rotate header text for extreme cases */";
      py "                        /* writing-mode: vertical-rl; transform: rotate(180deg); */";
      py "                    }";
      py "                </style>";
      py "            </head>";
      py "            <body>";
      py "                <div class=" ++ quote ++ py "content" ++ quote ++ py ">";
      py "                    <div class=" ++ quote ++ py "table-wrapper" ++ quote ++ py ">" ].

Definition styled_html_tail : str :=
  unlines
    [ py "</div>";
      py "                </div>";
      py "            </body>";
      py "            </html>";
      py "            " ].

Definition styled_html (html_content : str) : str :=
  styled_html_head ++ html_content ++ styled_html_tail.

Definition html_to_pdf (html_content output_path : str) : M bool :=
  try_except
    (let styled_html := styled_html html_content in
     let base_url := base_url self in
     weasyprint_write_pdf E styled_html base_url output_path;;
     mret true)
    is_Exception
    (fun e =>
       if is_ImportError e
       then log WARNING MsgWeasyPrintNotInstalled;; mret false
       else log ERROR (MsgErrorConverting e);; mret false).

(** *** [download_page] *)

Definition pdf_filename (page : Page) : str :=
  sanitize_filename (page_title page) ++ py "_" ++ page_id page ++ py ".pdf".

Definition html_filename (page : Page) : str :=
  sanitize_filename (page_title page) ++ py "_" ++ page_id page ++ py ".html".

(** [<div class="page-title">{page_title}</div>{html_content}] *)
Definition html_with_title (page_title html_content : str) : str :=
  py "<div class=" ++ quote ++ py "page-title" ++ quote ++ py ">"
  ++ page_title ++ py "</div>" ++ html_content.

(** [<h1>{page_title}</h1>{html_content}] *)
Definition html_with_heading (page_title html_content : str) : str :=
  py "<h1>" ++ page_title ++ py "</h1>" ++ html_content.

(** Truth value of an [Optional[bytes]] or [Optional[str]]: neither [None]
    nor empty. *)
Definition truthy {A} (x : option (list A)) : bool :=
  match x with
  | Some (_ :: _) => true
  | _ => false
  end.

Definition download_page (page : Page) : M bool :=
  let page_id := page_id page in
  let page_title := page_title page in
  log INFO (MsgDownloadingPage page_title page_id);;
  let pdf_filename := pdf_filename page in
  let output_path := in_output_dir self pdf_filename in
  ex ← path_exists output_path;
  if ex : bool then
    log INFO (MsgFileExists pdf_filename);;
    mret true
  else
    sleep 1000;;
    pdf_content ← get_page_content_as_pdf page_id;
    if truthy pdf_content then
      try_except
        (write_file E output_path (Binary (default [] pdf_content));;
         log INFO (MsgDownloadedPdf pdf_filename);;
         mret true)
        is_Exception
        (fun e => log ERROR (MsgErrorSavingPdf pdf_filename e);; mret false)
    else
      log INFO (MsgTryingHtml page_title);;
      html_content ← get_page_html_content page_id;
      if truthy html_content then
        let html_content := default [] html_content in
        let html_with_title := html_with_title page_title html_content in
        converted ← html_to_pdf html_with_title output_path;
        if converted : bool then
          log INFO (MsgConvertedHtml pdf_filename);;
          mret true
        else
          let html_filename := html_filename page in
          let html_path := in_output_dir self html_filename in
          try_except
            (write_file E html_path
               (Text (html_with_heading page_title html_content));;
             log INFO (MsgSavedAsHtml html_filename);;
             mret true)
            is_Exception
            (fun e =>
               log ERROR (MsgErrorSavingHtml html_filename e);; mret false)
      else
        log ERROR (MsgFailedToDownload page_title);;
        mret false.

(** *** [download_all_pages] *)

(** [for i, page in enumerate(pages, 1)], with [n = len(pages)] and the two
    counters. *)
Fixpoint download_loop (n : nat) (pages : list Page) (i : nat)
    (successful_downloads failed_downloads : nat) : M (nat * nat) :=
  match pages with
  | [] => mret (successful_downloads, failed_downloads)
  | page :: rest =>
      log INFO (MsgProcessing i n);;
      ok ← download_page page;
      if ok : bool
      then download_loop n rest (S i) (S successful_downloads) failed_downloads
      else download_loop n rest (S i) successful_downloads (S failed_downloads)
  end.

Definition download_all_pages (fuel : nat) : M unit :=
  log INFO (MsgStarting (space_key self));;
  pages ← get_space_pages fuel 100;
  match pages with
  | [] =>
      log ERROR MsgNoPagesFound;;
      mret tt
  | _ :: _ =>
      counts ← download_loop (length pages) pages 1%nat 0%nat 0%nat;
      log INFO MsgCompleted;;
      log INFO (MsgSuccessful (fst counts));;
      log INFO (MsgFailed (snd counts));;
      log INFO (MsgFilesSavedTo (output_dir self));;
      mret tt
  end.

End Methods.


(* ===================================================================== *)
(** ** Vocabulary of the statements *)
(* ===================================================================== *)

(** The world after a run of events that touch neither the files nor the
    outside. *)
Fixpoint emits (evs : list event) (w : world) : world :=
  match evs with
  | [] => w
  | ev :: evs' => emits evs' (emit ev w)
  end.

(** The world in which [download_page] starts fetching a page whose PDF is
    not on disk: the first log line and the one-second pause are behind. *)
Definition started (page : Page) (w : world) : world :=
  emits [EvLog INFO (MsgDownloadingPage (page_title page) (page_id page));
         EvSleep 1000] w.

(** What a run added to the trace. *)
Definition new_events (w w' : world) : list event :=
  drop (length (trace w)) (trace w').

Definition pdf_path (self : ConfluenceDownloader) (page : Page) : str :=
  in_output_dir self (pdf_filename page).

Definition html_path (self : ConfluenceDownloader) (page : Page) : str :=
  in_output_dir self (html_filename page).

(** The four requests of the program. *)
Definition listing_request (self : ConfluenceDownloader) (limit start : Z)
  : request :=
  mkRequest (listing_url self) (listing_params self limit start).

Definition export_request_1 (self : ConfluenceDownloader) (pid : str)
  : request :=
  mkRequest (export_url_1 self) (export_params_1 pid).

Definition export_request_2 (self : ConfluenceDownloader) (pid : str)
  : request :=
  mkRequest (export_url_2 self) (export_params_2 pid).

Definition content_request (self : ConfluenceDownloader) (pid : str)
  : request :=
  mkRequest (content_url self pid) content_params.

(** The requests of a trace, in order. *)
Definition requests_of (evs : list event) : list request :=
  omap (fun ev => match ev with EvGet r _ => Some r | _ => None end) evs.

(** Events that hand data to the file system. *)
Definition is_write (ev : event) : bool :=
  match ev with
  | EvWrite _ _ _ | EvRender _ _ _ _ => true
  | _ => false
  end.

(** An attempt to write a file: [open] and [write], or a rendering that got
    as far as producing or writing its output. *)
Definition write_attempt (ev : event) : bool :=
  match ev with
  | EvWrite _ _ _ => true
  | EvRender _ _ _ (RenderRaises _) | EvRender _ _ _ (RenderOk _) => true
  | _ => false
  end.

(** A write attempt that raised. *)
Definition write_raised (ev : event) : bool :=
  match ev with
  | EvWrite _ _ (WriteRaises _) => true
  | EvRender _ _ _ (RenderRaises _) => true
  | _ => false
  end.

(** The decoded document has no [body.export_view.value]. *)
Definition lacks_value (d : json_doc) : Prop :=
  match body d with
  | None => True
  | Some b =>
      match export_view b with
      | None => True
      | Some v => value v = None
      end
  end.

(** [raise_for_status] lets the response through. *)
Definition status_passes (r : response) : bool :=
  negb ((400 <=? status_code r) && (status_code r <? 600)).

(** What an export endpoint yields: the bytes of an accepted response. *)
Definition export_value (res : get_result) : option bytes :=
  match res with
  | GetResponse r => if is_pdf_response r then Some (content r) else None
  | GetRaises _ => None
  end.

(** What a listing or content request yields to the code under
    [except RequestException]: a decoded document, a caught failure, or an
    exception of another class that propagates. *)
Inductive json_outcome : Type :=
  | Decoded (d : json_doc)
  | Caught (e : exn)
  | Escapes (e : exn).

Definition json_value (res : get_result) : json_outcome :=
  match res with
  | GetRaises e => if is_RequestException e then Caught e else Escapes e
  | GetResponse r =>
      if status_passes r then
        match json r with
        | JsonDoc d => Decoded d
        | JsonRaises e => if is_RequestException e then Caught e else Escapes e
        end
      else Caught RequestException
  end.

(** The files a world holds, by name only. *)
Definition on_disk (w : world) (path : str) : Prop := is_Some (fs w !! path).

(** *** The export cascade, read off the oracle *)

Section Cascade.

Context (E : Env) (self : ConfluenceDownloader).

(** The events of the two export attempts made from call number [c]. *)
Definition export_events (pid : str) (c : nat) : list event :=
  let a := env_get E c (export_request_1 self pid) in
  let b := env_get E (S c) (export_request_2 self pid) in
  EvGet (export_request_1 self pid) a
  :: match a with
     | GetRaises e => [EvLog DEBUG (MsgExportMethod1Failed e)]
     | GetResponse _ => []
     end
  ++ match export_value a with
     | Some _ => []
     | None =>
         EvGet (export_request_2 self pid) b
         :: match b with
            | GetRaises e => [EvLog DEBUG (MsgExportMethod2Failed e)]
            | GetResponse _ => []
            end
     end.

Definition export_result (pid : str) (c : nat) : option bytes :=
  match export_value (env_get E c (export_request_1 self pid)) with
  | Some pdf => Some pdf
  | None => export_value (env_get E (S c) (export_request_2 self pid))
  end.

Definition export_calls (pid : str) (c : nat) : nat :=
  match export_value (env_get E c (export_request_1 self pid)) with
  | Some _ => 1
  | None => 2
  end.

End Cascade.

Arguments started : simpl never.
Arguments export_events : simpl never.
Arguments export_result : simpl never.
Arguments export_calls : simpl never.

(** *** The listing, read off the oracle *)

Section Listing.

Context (E : Env) (self : ConfluenceDownloader).

(** The batch of pages a listing answer carries, when it carries one. *)
Definition listing_batch (res : get_result) : option (list Page) :=
  match json_value res with
  | Decoded d => Some (default [] (results d))
  | _ => None
  end.

(** The remote answers the listing requests made from call number [c] and
    offset [start] on, one per batch, with the given batches. *)
Fixpoint served (limit : Z) (c : nat) (start : Z)
    (batches : list (list Page)) : Prop :=
  match batches with
  | [] => True
  | b :: bs =>
      listing_batch (env_get E c (listing_request self limit start)) = Some b
      ∧ served limit (S c) (start + limit) bs
  end.

(** A failure of the listing request that [except RequestException]
    catches: the call raises it, the status is 4xx or 5xx, or the body does
    not decode. *)
Definition transport_failure (res : get_result) : Prop :=
  res = GetRaises RequestException
  ∨ ∃ r, res = GetResponse r
         ∧ (status_passes r = false
            ∨ status_passes r = true ∧ json r = JsonRaises RequestException).

(** The events of the turns that fetch the full batches, [n] pages being
    accumulated already. *)
Fixpoint full_events (limit : Z) (c : nat) (start : Z) (n : nat)
    (batches : list (list Page)) : list event :=
  match batches with
  | [] => []
  | b :: bs =>
      [EvGet (listing_request self limit start)
             (env_get E c (listing_request self limit start));
       EvLog INFO (MsgFetched (length b) (n + length b));
       EvSleep 500]
      ++ full_events limit (S c) (start + limit) (n + length b) bs
  end.

End Listing.

(** *** The run, read off the trace *)

(** The four lines of the summary. *)
Definition summary_events (self : ConfluenceDownloader)
    (successful failed : nat) : list event :=
  [EvLog INFO MsgCompleted;
   EvLog INFO (MsgSuccessful successful);
   EvLog INFO (MsgFailed failed);
   EvLog INFO (MsgFilesSavedTo (output_dir self))].

(** The events of a loop that skips every page, from index [i] of [n]. *)
Fixpoint skip_events (n i : nat) (pages : list Page) : list event :=
  match pages with
  | [] => []
  | page :: rest =>
      [EvLog INFO (MsgProcessing i n);
       EvLog INFO (MsgDownloadingPage (page_title page) (page_id page));
       EvLog INFO (MsgFileExists (pdf_filename page))]
      ++ skip_events n (S i) rest
  end.

(** A page was saved as raw HTML. *)
Definition saved_as_html (ev : event) : Prop :=
  ∃ name, ev = EvLog INFO (MsgSavedAsHtml name).

(** *** Scenarios *)

Module Scenario.

Definition docs : ConfluenceDownloader :=
  init (py "https://example.atlassian.net/") (py "user") (py "token")
       (py "DOCS").

Definition intro : Page := mkPage (py "101") (py "Intro").
Definition setup : Page := mkPage (py "102") (py "Setup Guide").

Definition fresh : world := mkWorld ∅ 0 [].

Definition pdf_bytes : bytes := [Byte.x25; Byte.x50; Byte.x44; Byte.x46].

(** Responses of the remote. *)
Definition pdf_response : response :=
  mkResponse 200 (Some (py "application/pdf")) pdf_bytes
             (JsonRaises RequestException).

Definition login_page : response :=
  mkResponse 200 (Some (py "text/html; charset=utf-8")) [Byte.x3c]
             (JsonRaises RequestException).

Definition server_error : response :=
  mkResponse 500 (Some (py "text/html")) [] (JsonRaises RequestException).

Definition doc_with_html (html : str) : json_doc :=
  mkDoc None (Some (mkBody (Some (mkExportView (Some html))))).

Definition doc_without_body : json_doc := mkDoc None None.

Definition json_response (d : json_doc) : response :=
  mkResponse 200 (Some (py "application/json")) [] (JsonDoc d).

Definition listing_of (pages : list Page) : response :=
  json_response (mkDoc (Some pages) None).

(** A remote that answers by request: the listing by [start] offset from a
    list of batches, export A and B by fixed answers, the content endpoint
    by a fixed document. *)
Definition remote (self : ConfluenceDownloader) (limit : Z)
    (batches : list (list Page)) (a b : get_result) (d : json_doc)
    (n : nat) (r : request) : get_result :=
  if bool_decide (url r = listing_url self) then
    match params r !! 4%nat with
    | Some (_, PInt start) =>
        GetResponse
          (listing_of (default [] (batches !! Z.to_nat (start / limit))))
    | _ => GetRaises RequestException
    end
  else if bool_decide (url r = export_url_1 self) then a
  else if bool_decide (url r = export_url_2 self) then b
  else GetResponse (json_response d).

Definition third : Page := mkPage (py "103") (py "Notes").

Definition disk_ok : nat -> str -> file_content -> write_result :=
  fun _ _ _ => WriteOk.

Definition disk_full : nat -> str -> file_content -> write_result :=
  fun _ _ _ => WriteRaises None.

Definition rendered : bytes := [Byte.x25; Byte.x50].

Definition renderer_ok : nat -> str -> str -> str -> render_result :=
  fun _ _ _ _ => RenderOk rendered.

Definition renderer_missing : nat -> str -> str -> str -> render_result :=
  fun _ _ _ _ => ImportFails.

End Scenario.
(* ===================================================================== *)
(** ** Properties of the file names *)
(* ===================================================================== *)

Section Strings.

Implicit Types (s t : str) (c : N) (p : N -> bool).

Lemma lstrip_by_split p s :
  ∃ l, s = l ++ lstrip_by p s ∧ Forall (fun c => p c = true) l.
Proof.
  induction s as [|c s [l [Hs Hl]]]; simpl.
  - by exists [].
  - destruct (p c) eqn:Hc.
    + exists (c :: l). split; [simpl; by rewrite <- Hs | by constructor].
    + by exists [].
Qed.

Lemma lstrip_by_head p s c : head (lstrip_by p s) = Some c → p c = false.
Proof.
  induction s as [|a s IH]; simpl; [done|].
  destruct (p a) eqn:Ha; [done|]. simpl. by intros [= <-].
Qed.

Lemma lstrip_by_keeps_last p s c :
  last (lstrip_by p s) = Some c → last s = Some c.
Proof.
  destruct (lstrip_by_split p s) as [l [Hs _]]. intros H.
  rewrite Hs. destruct (lstrip_by p s) as [|a r] eqn:Hr; [done|].
  by rewrite last_app, H.
Qed.

Lemma rstrip_by_split p s :
  ∃ r, s = rstrip_by p s ++ r ∧ Forall (fun c => p c = true) r.
Proof.
  unfold rstrip_by.
  destruct (lstrip_by_split p (reverse s)) as [l [Hs Hl]].
  exists (reverse l). split.
  - by rewrite <- reverse_app, <- Hs, reverse_involutive.
  - by apply Forall_reverse.
Qed.

Lemma rstrip_by_last p s c : last (rstrip_by p s) = Some c → p c = false.
Proof.
  unfold rstrip_by. rewrite last_reverse. apply lstrip_by_head.
Qed.

(** [strip] removes a run of white space at each end and stops at the
    first character that is not white space. *)
Lemma strip_split s :
  ∃ l r, s = l ++ strip s ++ r
         ∧ Forall (fun c => is_space c = true) l
         ∧ Forall (fun c => is_space c = true) r
         ∧ (∀ c, head (strip s) = Some c → is_space c = false)
         ∧ (∀ c, last (strip s) = Some c → is_space c = false).
Proof.
  unfold strip.
  destruct (rstrip_by_split is_space s) as [r [Hs Hr]].
  destruct (lstrip_by_split is_space (rstrip_by is_space s)) as [l [Hm Hl]].
  exists l, r. split_and!; try done.
  - rewrite app_assoc, <- Hm. exact Hs.
  - apply lstrip_by_head.
  - intros c Hc. apply lstrip_by_keeps_last in Hc.
    by apply rstrip_by_last in Hc.
Qed.

Lemma strip_elem s c : c ∈ strip s → c ∈ s.
Proof.
  destruct (strip_split s) as (l & r & Hs & _). intros H.
  rewrite Hs. set_solver.
Qed.

Lemma startswith_prefix s t : startswith s t = true ↔ ∃ rest, s = t ++ rest.
Proof.
  revert s. induction t as [|a t IH]; intros s; simpl.
  - split; [intros _; by exists s|done].
  - destruct s as [|b s].
    + split; [done|]. by intros [rest ?].
    + rewrite andb_true_iff, N.eqb_eq, IH. split.
      * intros [-> [rest ->]]. by exists rest.
      * intros [rest [= -> ->]]. split; [done|by exists rest].
Qed.

(** The loop of single-character replacements is one pass over the title. *)
Lemma replace_loop_map (cs : list N) s :
  fold_left (fun filename char => replace_char char underscore filename) cs s
  = map (fun c => if existsb (N.eqb c) cs then underscore else c) s.
Proof.
  revert s. induction cs as [|a cs IH]; intros s; simpl.
  - by rewrite map_id.
  - rewrite IH. unfold replace_char. rewrite map_map. apply map_ext. intros c.
    destruct (N.eqb_spec c a) as [->|Hne]; simpl; [|done].
    by destruct (existsb _ cs).
Qed.

Lemma is_unsafe_chars c :
  is_unsafe c = true ↔ c ∈ [60; 62; 58; 34; 47; 92; 124; 63; 42]%N.
Proof.
  unfold is_unsafe. rewrite existsb_exists. split.
  - intros [x [Hx ->%N.eqb_eq]]. by apply list_elem_of_In.
  - intros H. exists c. split; [by apply list_elem_of_In|apply N.eqb_refl].
Qed.

Lemma sanitize_filename_spec s : sanitize_filename s = sanitize_spec s.
Proof.
  unfold sanitize_filename, sanitize_spec, slice_to.
  by rewrite replace_loop_map.
Qed.

Lemma sanitize_filename_length s : (length (sanitize_filename s) ≤ 200)%nat.
Proof. unfold sanitize_filename, slice_to. rewrite length_take. lia. Qed.

Lemma sanitize_filename_safe s c :
  c ∈ sanitize_filename s → is_unsafe c = false.
Proof.
  rewrite sanitize_filename_spec. unfold sanitize_spec.
  intros H%subseteq_take%strip_elem.
  apply list_elem_of_fmap in H as [x [-> _]].
  destruct (is_unsafe x) eqn:Hx; [|done].
  by vm_compute.
Qed.

End Strings.

Example sanitize_my_page_name :
  sanitize_filename (py "My/Page:Name?") = py "My_Page_Name_".
Proof. reflexivity. Qed.

(** C6: the file name of a page is its title with every character of the
    unsafe set turned into an underscore, white space trimmed at both ends,
    the result cut at 200 characters, and only then followed by the
    underscore, the page id and the extension. *)
Theorem C6_filename_derivation (page : Page) :
  let replaced :=
    map (fun c => if is_unsafe c then underscore else c) (page_title page) in
  ∃ l trimmed r,
    replaced = l ++ trimmed ++ r
    ∧ Forall (fun c => is_space c = true) l
    ∧ Forall (fun c => is_space c = true) r
    ∧ (∀ c, head trimmed = Some c → is_space c = false)
    ∧ (∀ c, last trimmed = Some c → is_space c = false)
    ∧ sanitize_filename (page_title page) = take 200 trimmed
    ∧ (length (sanitize_filename (page_title page)) ≤ 200)%nat
    ∧ (∀ c, c ∈ sanitize_filename (page_title page) →
            c ∉ [60; 62; 58; 34; 47; 92; 124; 63; 42]%N)
    ∧ pdf_filename page
      = take 200 trimmed ++ py "_" ++ page_id page ++ py ".pdf"
    ∧ html_filename page
      = take 200 trimmed ++ py "_" ++ page_id page ++ py ".html".
Proof.
  intros replaced.
  destruct (strip_split replaced) as (l & r & Hs & Hl & Hr & Hh & Ht).
  assert (Hsan : sanitize_filename (page_title page) = take 200 (strip replaced))
    by apply sanitize_filename_spec.
  exists l, (strip replaced), r. split_and!; try done.
  - apply sanitize_filename_length.
  - intros c Hc Hin. apply sanitize_filename_safe in Hc.
    apply is_unsafe_chars in Hin. congruence.
  - unfold pdf_filename. by rewrite Hsan.
  - unfold html_filename. by rewrite Hsan.
Qed.

(* ===================================================================== *)
(** ** Running the methods *)
(* ===================================================================== *)

Ltac unfold_monad :=
  unfold mbind, M_bind, mret, M_ret, bind, ret, try_except, raise,
    out_of_fuel, log, sleep, session_get, write_file, weasyprint_write_pdf,
    path_exists, raise_for_status, response_json in *.

Ltac world_eq := unfold emit, tick, set_file; simpl;
  rewrite <- ?app_assoc; simpl; try reflexivity.

Lemma trace_emits evs w : trace (emits evs w) = trace w ++ evs.
Proof.
  revert w. induction evs as [|ev evs IH]; intros w; simpl.
  - by rewrite app_nil_r.
  - rewrite IH. simpl. by rewrite <- app_assoc.
Qed.

Lemma fs_emits evs w : fs (emits evs w) = fs w.
Proof. revert w. induction evs as [|ev evs IH]; intros w; simpl; [done|by rewrite IH]. Qed.

Lemma clock_emits evs w : clock (emits evs w) = clock w.
Proof. revert w. induction evs as [|ev evs IH]; intros w; simpl; [done|by rewrite IH]. Qed.

Lemma trace_started page w :
  trace (started page w)
  = trace w ++ [EvLog INFO (MsgDownloadingPage (page_title page) (page_id page));
                EvSleep 1000].
Proof. unfold started. apply trace_emits. Qed.

Lemma fs_started page w : fs (started page w) = fs w.
Proof. reflexivity. Qed.

Lemma clock_started page w : clock (started page w) = clock w.
Proof. reflexivity. Qed.

Lemma new_events_app w w' evs :
  trace w' = trace w ++ evs → new_events w w' = evs.
Proof. intros H. unfold new_events. rewrite H. apply drop_app_length. Qed.

Section Fetch.

Context (E : Env) (self : ConfluenceDownloader).

(** One export attempt never raises: it yields the accepted bytes or
    nothing, after exactly one request. *)
Lemma try_export_run u ps failed w :
  let res := env_get E (clock w) (mkRequest u ps) in
  try_export E u ps failed w
  = (Ok (export_value res),
     {| fs := fs w; clock := S (clock w);
        trace := trace w ++ EvGet (mkRequest u ps) res
                   :: match res with
                      | GetRaises e => [EvLog DEBUG (failed e)]
                      | GetResponse _ => []
                      end |}).
Proof.
  intros res. unfold try_export. unfold_monad. fold res. simpl.
  destruct res as [e|r]; simpl.
  - world_eq.
  - destruct (is_pdf_response r); world_eq.
Qed.

Lemma get_page_content_as_pdf_run pid w :
  get_page_content_as_pdf E self pid w
  = (Ok (export_result E self pid (clock w)),
     {| fs := fs w; clock := export_calls E self pid (clock w) + clock w;
        trace := trace w ++ export_events E self pid (clock w) |}).
Proof.
  unfold get_page_content_as_pdf, export_result, export_calls, export_events.
  unfold mbind at 1, M_bind at 1, bind at 1.
  rewrite try_export_run. fold (export_request_1 self pid).
  destruct (export_value (env_get E (clock w) (export_request_1 self pid)))
    as [pdf|] eqn:Ha.
  - unfold_monad. simpl. by rewrite app_nil_r.
  - unfold mbind at 1, M_bind at 1, bind at 1.
    rewrite try_export_run. fold (export_request_2 self pid). simpl.
    destruct (export_value (env_get E (S (clock w)) _)) eqn:Hb;
      unfold_monad; simpl; rewrite <- app_assoc; reflexivity.
Qed.

(** The export cascade never raises and never touches the files. *)
Lemma get_page_content_as_pdf_total pid w :
  ∃ pdf w', get_page_content_as_pdf E self pid w = (Ok pdf, w')
            ∧ fs w' = fs w.
Proof. rewrite get_page_content_as_pdf_run. by eexists _, _. Qed.

Lemma get_page_html_content_run pid w :
  let res := env_get E (clock w) (content_request self pid) in
  get_page_html_content E self pid w
  = (match json_value res with
     | Decoded d => Ok (Some (html_of_doc d))
     | Caught _ => Ok None
     | Escapes e => Raise e
     end,
     {| fs := fs w; clock := S (clock w);
        trace := trace w ++ EvGet (content_request self pid) res
                   :: match json_value res with
                      | Caught e => [EvLog ERROR (MsgErrorFetchingHtml pid e)]
                      | _ => []
                      end |}).
Proof.
  intros res. unfold get_page_html_content. unfold_monad.
  fold (content_request self pid). fold res. unfold json_value, status_passes.
  destruct res as [e|r]; simpl.
  - destruct e; world_eq.
  - destruct ((400 <=? status_code r) && (status_code r <? 600)); simpl;
      [world_eq|].
    destruct (json r) as [e|d]; simpl; [destruct e|]; world_eq.
Qed.

Lemma html_to_pdf_run html path w :
  let res := env_render E (clock w) (styled_html html) (base_url self) path in
  html_to_pdf E self html path w
  = (Ok (match res with RenderOk _ => true | _ => false end),
     {| fs := match res with
              | RenderOk pdf => <[path := Binary pdf]> (fs w)
              | RenderRaises (Some b) => <[path := Binary b]> (fs w)
              | _ => fs w
              end;
        clock := S (clock w);
        trace := trace w
                 ++ EvRender (styled_html html) (base_url self) path res
                 :: match res with
                    | ImportFails => [EvLog WARNING MsgWeasyPrintNotInstalled]
                    | RenderRaises _ =>
                        [EvLog ERROR (MsgErrorConverting OtherException)]
                    | RenderOk _ => []
                    end |}).
Proof.
  intros res. unfold html_to_pdf. unfold_monad. fold res.
  destruct res as [|[b|]|pdf]; simpl; world_eq.
Qed.

End Fetch.

(* ===================================================================== *)
(** ** One page *)
(* ===================================================================== *)

Ltac new_events_simpl :=
  unfold new_events; cbn [trace fs clock emit emits tick set_file];
  rewrite ?trace_emits, ?trace_started, ?clock_started, ?fs_started;
  cbn [trace fs clock emit emits tick set_file];
  rewrite <- ?app_assoc; rewrite ?drop_app_length; cbn [app].

Ltac world_cbn :=
  cbn [fst snd truthy is_Exception is_ImportError is_RequestException trace fs clock
       emit emits tick set_file].

Section OnePage.

Context (E : Env) (self : ConfluenceDownloader).

Lemma download_page_on_disk page w :
  on_disk w (pdf_path self page) →
  download_page E self page w
  = (Ok true,
     emits [EvLog INFO (MsgDownloadingPage (page_title page) (page_id page));
            EvLog INFO (MsgFileExists (pdf_filename page))] w).
Proof.
  intros H. unfold download_page. unfold_monad. simpl.
  fold (pdf_path self page). by rewrite bool_decide_eq_true_2.
Qed.

(** When the PDF is not on disk the method pauses and runs the cascade. *)
Lemma download_page_absent page w :
  ¬ on_disk w (pdf_path self page) →
  download_page E self page w
  = (pdf_content ← get_page_content_as_pdf E self (page_id page);
     if truthy pdf_content then
       try_except
         (write_file E (pdf_path self page) (Binary (default [] pdf_content));;
          log INFO (MsgDownloadedPdf (pdf_filename page));;
          mret true)
         is_Exception
         (fun e =>
            log ERROR (MsgErrorSavingPdf (pdf_filename page) e);; mret false)
     else
       log INFO (MsgTryingHtml (page_title page));;
       html_content ← get_page_html_content E self (page_id page);
       if truthy html_content then
         converted ← html_to_pdf E self
           (html_with_title (page_title page) (default [] html_content))
           (pdf_path self page);
         if converted : bool then
           log INFO (MsgConvertedHtml (pdf_filename page));;
           mret true
         else
           try_except
             (write_file E (html_path self page)
                (Text (html_with_heading (page_title page)
                         (default [] html_content)));;
              log INFO (MsgSavedAsHtml (html_filename page));;
              mret true)
             is_Exception
             (fun e =>
                log ERROR (MsgErrorSavingHtml (html_filename page) e);;
                mret false)
       else
         log ERROR (MsgFailedToDownload (page_title page));;
         mret false) (started page w).
Proof.
  intros H. unfold download_page.
  unfold mbind at 1 2, M_bind at 1 2, bind at 1 2, log at 1, path_exists.
  simpl. fold (pdf_path self page).
  rewrite bool_decide_eq_false_2 by done.
  unfold mbind at 1, M_bind at 1, bind at 1, sleep at 1. reflexivity.
Qed.

End OnePage.

(** C5: a page whose PDF path is already on disk is reported successful
    without any request, rendering or write, whatever the file holds: the
    files and the call counter are untouched and the run adds two log lines
    to the trace. *)
Theorem C5_existing_pdf_is_skipped (E : Env) (self : ConfluenceDownloader)
    (page : Page) (w : world) :
  on_disk w (pdf_path self page) →
  ∃ w', download_page E self page w = (Ok true, w')
        ∧ fs w' = fs w
        ∧ clock w' = clock w
        ∧ new_events w w'
          = [EvLog INFO (MsgDownloadingPage (page_title page) (page_id page));
             EvLog INFO (MsgFileExists (pdf_filename page))].
Proof.
  intros H. eexists. split; [by apply download_page_on_disk|].
  split_and!; [done|done|]. by new_events_simpl.
Qed.

Lemma C5_existing_pdf_is_skipped_witness :
  let w := mkWorld {[ pdf_path Scenario.docs Scenario.intro := Binary [] ]}
                   0 [] in
  let E := mkEnv (fun _ _ => GetRaises OtherException) Scenario.disk_full
                 Scenario.renderer_missing in
  on_disk w (pdf_path Scenario.docs Scenario.intro)
  ∧ ∃ w', download_page E Scenario.docs Scenario.intro w = (Ok true, w')
          ∧ fs w' = fs w
          ∧ clock w' = clock w
          ∧ new_events w w'
            = [EvLog INFO (MsgDownloadingPage (py "Intro") (py "101"));
               EvLog INFO (MsgFileExists (py "Intro_101.pdf"))].
Proof.
  intros w E.
  assert (H : on_disk w (pdf_path Scenario.docs Scenario.intro)).
  { unfold on_disk, w. simpl. rewrite lookup_singleton_eq. by eexists. }
  split; [exact H|].
  exact (C5_existing_pdf_is_skipped E Scenario.docs Scenario.intro w H).
Defined.

(** C10: when native PDF bytes were obtained and writing them raises, the
    page is reported failed at once: after the cascade the run consists of
    the failed write and one error line, with no content request, no
    rendering and no HTML write. *)
Theorem C10_pdf_write_error_fails_page (E : Env) (self : ConfluenceDownloader)
    (page : Page) (w w2 : world) (pdf : bytes) (left : option file_content) :
  ¬ on_disk w (pdf_path self page) →
  get_page_content_as_pdf E self (page_id page) (started page w)
  = (Ok (Some pdf), w2) →
  pdf ≠ [] →
  env_write E (clock w2) (pdf_path self page) (Binary pdf) = WriteRaises left →
  ∃ w3, download_page E self page w = (Ok false, w3)
        ∧ clock w3 = S (clock w2)
        ∧ new_events w2 w3
          = [EvWrite (pdf_path self page) (Binary pdf) (WriteRaises left);
             EvLog ERROR (MsgErrorSavingPdf (pdf_filename page) OtherException)].
Proof.
  intros Habs Hpdf Hne Hw.
  rewrite download_page_absent by done.
  unfold mbind at 1, M_bind at 1, bind at 1. rewrite Hpdf.
  destruct pdf as [|b pdf]; [done|]. simpl.
  unfold_monad. rewrite Hw.
  destruct left as [c|]; simpl; eexists; (split; [reflexivity|]);
    split; try done; by new_events_simpl.
Qed.

Lemma C10_pdf_write_error_fails_page_witness :
  let E := mkEnv (fun _ _ => GetResponse Scenario.pdf_response)
                 Scenario.disk_full Scenario.renderer_ok in
  let w := Scenario.fresh in
  let w2 := snd (get_page_content_as_pdf E Scenario.docs (py "101")
                   (started Scenario.intro w)) in
  (¬ on_disk w (pdf_path Scenario.docs Scenario.intro)
   ∧ get_page_content_as_pdf E Scenario.docs (py "101")
       (started Scenario.intro w) = (Ok (Some Scenario.pdf_bytes), w2)
   ∧ env_write E (clock w2) (pdf_path Scenario.docs Scenario.intro)
       (Binary Scenario.pdf_bytes) = WriteRaises None)
  ∧ ∃ w3, download_page E Scenario.docs Scenario.intro w = (Ok false, w3)
          ∧ clock w3 = S (clock w2)
          ∧ new_events w2 w3
            = [EvWrite (pdf_path Scenario.docs Scenario.intro)
                 (Binary Scenario.pdf_bytes) (WriteRaises None);
               EvLog ERROR
                 (MsgErrorSavingPdf (py "Intro_101.pdf") OtherException)].
Proof.
  intros E w w2.
  assert (Habs : ¬ on_disk w (pdf_path Scenario.docs Scenario.intro)).
  { unfold on_disk, w. simpl. rewrite lookup_empty. by intros [? ?]. }
  split; [split_and!; [exact Habs|reflexivity|reflexivity]|].
  apply (C10_pdf_write_error_fails_page E Scenario.docs Scenario.intro w w2
           Scenario.pdf_bytes None Habs); [reflexivity|discriminate|reflexivity].
Defined.

Lemma lacks_value_html_of_doc d : lacks_value d → html_of_doc d = [].
Proof.
  unfold lacks_value, html_of_doc.
  destruct (body d) as [b|]; simpl; [|done].
  destruct (export_view b) as [v|]; simpl; [|done].
  by intros ->.
Qed.

(** C9: a page whose export attempts yield nothing and whose content
    response passes the status check and decodes, but has no
    [body.export_view.value], is reported failed although the content
    request raised nothing; no file is written. *)
Theorem C9_missing_html_value_fails_page (E : Env)
    (self : ConfluenceDownloader) (page : Page) (w w2 : world)
    (pdf : option bytes) (r : response) (d : json_doc) :
  ¬ on_disk w (pdf_path self page) →
  get_page_content_as_pdf E self (page_id page) (started page w)
  = (Ok pdf, w2) →
  truthy pdf = false →
  env_get E (clock w2) (content_request self (page_id page)) = GetResponse r →
  status_passes r = true →
  json r = JsonDoc d →
  lacks_value d →
  ∃ w3, download_page E self page w = (Ok false, w3)
        ∧ fs w3 = fs w
        ∧ new_events w2 w3
          = [EvLog INFO (MsgTryingHtml (page_title page));
             EvGet (content_request self (page_id page)) (GetResponse r);
             EvLog ERROR (MsgFailedToDownload (page_title page))].
Proof.
  intros Habs Hpdf Hfalsy Hget Hst Hjson Hlack.
  destruct (get_page_content_as_pdf_total E self (page_id page)
              (started page w)) as (pdf' & w2' & Hrun & Hfs).
  rewrite Hpdf in Hrun. injection Hrun as <- <-.
  rewrite download_page_absent by done.
  unfold mbind at 1, M_bind at 1, bind at 1. rewrite Hpdf, Hfalsy.
  unfold mbind at 1 2, M_bind at 1 2, bind at 1 2, log at 1.
  rewrite get_page_html_content_run. simpl. rewrite Hget.
  unfold json_value. rewrite Hst, Hjson, (lacks_value_html_of_doc d Hlack).
  simpl. unfold_monad. eexists. split; [reflexivity|].
  split; [exact Hfs|]. by new_events_simpl.
Qed.

Lemma C9_missing_html_value_fails_page_witness :
  let E := mkEnv (Scenario.remote Scenario.docs 100 []
                    (GetResponse Scenario.login_page)
                    (GetResponse Scenario.server_error)
                    Scenario.doc_without_body)
                 Scenario.disk_ok Scenario.renderer_ok in
  let w := Scenario.fresh in
  let w2 := snd (get_page_content_as_pdf E Scenario.docs (py "102")
                   (started Scenario.setup w)) in
  let r := Scenario.json_response Scenario.doc_without_body in
  (¬ on_disk w (pdf_path Scenario.docs Scenario.setup)
   ∧ get_page_content_as_pdf E Scenario.docs (py "102")
       (started Scenario.setup w) = (Ok None, w2)
   ∧ env_get E (clock w2) (content_request Scenario.docs (py "102"))
     = GetResponse r
   ∧ status_passes r = true
   ∧ json r = JsonDoc Scenario.doc_without_body
   ∧ lacks_value Scenario.doc_without_body
   ∧ Forall (fun ev => ∀ q e, ev ≠ EvGet q (GetRaises e)) (trace w2))
  ∧ ∃ w3, download_page E Scenario.docs Scenario.setup w = (Ok false, w3)
          ∧ fs w3 = fs w
          ∧ new_events w2 w3
            = [EvLog INFO (MsgTryingHtml (py "Setup Guide"));
               EvGet (content_request Scenario.docs (py "102")) (GetResponse r);
               EvLog ERROR (MsgFailedToDownload (py "Setup Guide"))].
Proof.
  intros E w w2 r.
  assert (Habs : ¬ on_disk w (pdf_path Scenario.docs Scenario.setup)).
  { unfold on_disk, w. simpl. rewrite lookup_empty. by intros [? ?]. }
  split.
  - split_and!; [exact Habs|reflexivity|reflexivity|reflexivity|reflexivity
                 |exact I|].
    vm_compute. repeat constructor; discriminate.
  - apply (C9_missing_html_value_fails_page E Scenario.docs Scenario.setup
             w w2 None r Scenario.doc_without_body Habs);
      [reflexivity|reflexivity|reflexivity|reflexivity|reflexivity|exact I].
Defined.

Section Fallback.

Context (E : Env) (self : ConfluenceDownloader).

Lemma export_events_no_write pid c ev :
  ev ∈ export_events E self pid c → is_write ev = false.
Proof.
  unfold export_events.
  repeat case_match; simpl; intros Hin;
    repeat (apply elem_of_cons in Hin as [->|Hin]; [done|]);
    by apply elem_of_nil in Hin.
Qed.

Lemma is_write_attempt ev : is_write ev = false → write_attempt ev = false.
Proof. by destruct ev as [| | | |? ? ? [|?|?]]. Qed.

(** The raw-HTML fallback: after a failed conversion the method writes the
    HTML under a title heading to the [.html] path; the page is successful
    when that write goes through and failed when it raises. *)
Lemma download_page_html_fallback page w w2 pdf w3 html w4 :
  ¬ on_disk w (pdf_path self page) →
  get_page_content_as_pdf E self (page_id page) (started page w)
  = (Ok pdf, w2) →
  truthy pdf = false →
  get_page_html_content E self (page_id page)
    (emit (EvLog INFO (MsgTryingHtml (page_title page))) w2)
  = (Ok (Some html), w3) →
  html ≠ [] →
  html_to_pdf E self (html_with_title (page_title page) html)
    (pdf_path self page) w3 = (Ok false, w4) →
  let raw := Text (html_with_heading (page_title page) html) in
  let res := env_write E (clock w4) (html_path self page) raw in
  ∃ w5,
    download_page E self page w
    = (Ok (match res with WriteOk => true | WriteRaises _ => false end), w5)
    ∧ new_events w4 w5
      = [EvWrite (html_path self page) raw res;
         match res with
         | WriteOk => EvLog INFO (MsgSavedAsHtml (html_filename page))
         | WriteRaises _ =>
             EvLog ERROR (MsgErrorSavingHtml (html_filename page) OtherException)
         end]
    ∧ (res = WriteOk → fs w5 = <[html_path self page := raw]> (fs w4)).
Proof.
  intros Habs Hpdf Hfalsy Hhtml Hne Hconv raw res.
  rewrite download_page_absent by done.
  unfold mbind at 1, M_bind at 1, bind at 1. rewrite Hpdf, Hfalsy.
  unfold mbind at 1 2, M_bind at 1 2, bind at 1 2, log at 1.
  rewrite Hhtml. destruct html as [|c html]; [done|]. simpl.
  unfold mbind at 1, M_bind at 1, bind at 1. rewrite Hconv.
  unfold_monad. fold raw. fold res.
  destruct res as [|[c'|]] eqn:Hres; simpl; eexists;
    (split; [reflexivity|]); (split; [by new_events_simpl|]); done.
Qed.

(** A run that ends in writes which all raised, after events that write
    nothing. *)
Lemma only_failed_writes (pre mid post : list event) :
  Forall (fun ev => is_write ev = false) pre →
  Forall (fun ev => is_write ev = false) mid →
  Forall (fun ev => write_attempt ev = true → write_raised ev = true) post →
  Exists (fun ev => write_attempt ev = true) post →
  Exists (fun ev => write_attempt ev = true) (pre ++ mid ++ post)
  ∧ Forall (fun ev => write_attempt ev = true → write_raised ev = true)
      (pre ++ mid ++ post).
Proof.
  intros Hpre Hmid Hpost Hex. split.
  - apply Exists_app. right. apply Exists_app. by right.
  - assert (Hq : ∀ l, Forall (fun ev => is_write ev = false) l →
              Forall (fun ev => write_attempt ev = true
                                → write_raised ev = true) l).
    { intros l Hl. eapply Forall_impl; [exact Hl|].
      intros ev Hev%is_write_attempt. congruence. }
    apply Forall_app. split; [by apply Hq|].
    apply Forall_app. split; [by apply Hq|done].
Qed.

(** A page is reported failed only if both fetches came back empty, or a
    write was attempted and every attempted write raised. *)
Lemma download_page_failed_why page w w' :
  download_page E self page w = (Ok false, w') →
  (∃ pdf w2 html w3,
      get_page_content_as_pdf E self (page_id page) (started page w)
      = (Ok pdf, w2)
      ∧ truthy pdf = false
      ∧ get_page_html_content E self (page_id page)
          (emit (EvLog INFO (MsgTryingHtml (page_title page))) w2)
        = (Ok html, w3)
      ∧ truthy html = false)
  ∨ (Exists (fun ev => write_attempt ev = true) (new_events w w')
     ∧ Forall (fun ev => write_attempt ev = true → write_raised ev = true)
         (new_events w w')).
Proof.
  destruct (decide (on_disk w (pdf_path self page))) as [Hon|Habs].
  { rewrite download_page_on_disk by done. discriminate. }
  rewrite download_page_absent by done.
  unfold mbind at 1, M_bind at 1, bind at 1.
  pose proof (get_page_content_as_pdf_run E self (page_id page)
                (started page w)) as Hrun.
  rewrite Hrun.
  set (pdf := export_result E self (page_id page) (clock (started page w)))
    in *.
  set (w2 := mkWorld (fs (started page w)) _ _) in *.
  assert (Hexp : Forall (fun ev => is_write ev = false)
            (export_events E self (page_id page) (clock w))).
  { apply Forall_forall. apply export_events_no_write. }
  assert (Hstart : Forall (fun ev => is_write ev = false)
            [EvLog INFO (MsgDownloadingPage (page_title page) (page_id page));
             EvSleep 1000]) by (repeat constructor).
  destruct (truthy pdf) eqn:Hpdf.
  - (* the PDF write raised *)
    unfold_monad.
    destruct (env_write E (clock w2) _ _) as [|left] eqn:Hw; [discriminate|].
    intros Heq. right.
    destruct left; injection Heq as <-; subst w2; new_events_simpl;
      (apply (only_failed_writes [_; _]);
       [done|done|repeat constructor; done|by constructor]).
  - unfold mbind at 1 2, M_bind at 1 2, bind at 1 2, log at 1.
    pose proof (get_page_html_content_run E self (page_id page)
      (emit (EvLog INFO (MsgTryingHtml (page_title page))) w2)) as Hhtml.
    simpl in Hhtml. rewrite Hhtml.
    destruct (json_value _) as [d|e|e] eqn:Hjv; [| |discriminate].
    + destruct (truthy (Some (html_of_doc d))) eqn:Hh.
      * (* the conversion failed and the HTML write raised *)
        unfold mbind at 1, M_bind at 1, bind at 1.
        rewrite html_to_pdf_run. simpl.
        destruct (env_render E _ _ _ _) as [|pl|b] eqn:Hr;
          [| |unfold_monad; discriminate]; unfold_monad; simpl;
          (destruct (env_write E _ _ _) as [|left] eqn:Hw; [discriminate|]);
          intros Heq; right;
          destruct left; try destruct pl; injection Heq as <-; subst w2;
          new_events_simpl;
          (apply (only_failed_writes [_; _]);
           [done|done|repeat constructor; done
           |repeat first [by apply Exists_cons_hd | apply Exists_cons_tl]]).
      * intros _. left. exists pdf, w2, (Some (html_of_doc d)). eexists.
        split; [reflexivity|]. split; [exact Hpdf|].
        split; [exact Hhtml|exact Hh].
    + intros _. left. exists pdf, w2, None. eexists.
      split; [reflexivity|]. split; [exact Hpdf|].
      split; [exact Hhtml|done].
Qed.

End Fallback.

(** C7: when HTML was obtained and its conversion to PDF fails, the raw
    HTML under a title heading is written to the [.html] path and the page
    is reported successful, unless that write raises; and a page is
    reported failed only if no content of any kind was obtained or a write
    was attempted and every attempted write raised. *)
Theorem C7_raw_html_fallback (E : Env) (self : ConfluenceDownloader)
    (page : Page) (w : world) :
  (∀ w2 pdf w3 html w4,
     ¬ on_disk w (pdf_path self page) →
     get_page_content_as_pdf E self (page_id page) (started page w)
     = (Ok pdf, w2) →
     truthy pdf = false →
     get_page_html_content E self (page_id page)
       (emit (EvLog INFO (MsgTryingHtml (page_title page))) w2)
     = (Ok (Some html), w3) →
     html ≠ [] →
     html_to_pdf E self (html_with_title (page_title page) html)
       (pdf_path self page) w3 = (Ok false, w4) →
     let raw := Text (py "<h1>" ++ page_title page ++ py "</h1>" ++ html) in
     let res := env_write E (clock w4) (html_path self page) raw in
     ∃ w5,
       download_page E self page w
       = (Ok (match res with WriteOk => true | WriteRaises _ => false end), w5)
       ∧ new_events w4 w5
         = [EvWrite (html_path self page) raw res;
            match res with
            | WriteOk => EvLog INFO (MsgSavedAsHtml (html_filename page))
            | WriteRaises _ =>
                EvLog ERROR
                  (MsgErrorSavingHtml (html_filename page) OtherException)
            end]
       ∧ (res = WriteOk → fs w5 = <[html_path self page := raw]> (fs w4)))
  ∧ (∀ w',
       download_page E self page w = (Ok false, w') →
       (∃ pdf w2 html w3,
           get_page_content_as_pdf E self (page_id page) (started page w)
           = (Ok pdf, w2)
           ∧ truthy pdf = false
           ∧ get_page_html_content E self (page_id page)
               (emit (EvLog INFO (MsgTryingHtml (page_title page))) w2)
             = (Ok html, w3)
           ∧ truthy html = false)
       ∨ (Exists (fun ev => write_attempt ev = true) (new_events w w')
          ∧ Forall (fun ev => write_attempt ev = true
                              → write_raised ev = true)
              (new_events w w'))).
Proof.
  split.
  - intros w2 pdf w3 html w4 Habs Hpdf Hfalsy Hhtml Hne Hconv.
    exact (download_page_html_fallback E self page w w2 pdf w3 html w4
             Habs Hpdf Hfalsy Hhtml Hne Hconv).
  - apply download_page_failed_why.
Qed.

Lemma C7_raw_html_fallback_witness :
  let html := py "<p>steps</p>" in
  let get := Scenario.remote Scenario.docs 100 []
               (GetResponse Scenario.login_page)
               (GetResponse Scenario.server_error)
               (Scenario.doc_with_html html) in
  let E := mkEnv get Scenario.disk_ok Scenario.renderer_missing in
  let E' := mkEnv get Scenario.disk_full Scenario.renderer_missing in
  let w := Scenario.fresh in
  let page := Scenario.setup in
  let name := py "data/confluence_DOCS/Setup Guide_102.html" in
  let raw := Text (py "<h1>Setup Guide</h1><p>steps</p>") in
  (∃ w5, download_page E Scenario.docs page w = (Ok true, w5)
         ∧ fs w5 = {[ name := raw ]})
  ∧ (∃ w', download_page E' Scenario.docs page w = (Ok false, w')
           ∧ Exists (fun ev => write_attempt ev = true) (new_events w w')
           ∧ Forall (fun ev => write_attempt ev = true
                               → write_raised ev = true) (new_events w w')).
Proof.
  intros html get E E' w page name raw.
  assert (Habs : ¬ on_disk w (pdf_path Scenario.docs page)).
  { unfold on_disk, w. simpl. rewrite lookup_empty. by intros [? ?]. }
  split.
  - destruct (C7_raw_html_fallback E Scenario.docs page w) as [Hfall _].
    destruct (Hfall
      (snd (get_page_content_as_pdf E Scenario.docs (py "102")
              (started page w)))
      None
      (snd (get_page_html_content E Scenario.docs (py "102")
              (emit (EvLog INFO (MsgTryingHtml (py "Setup Guide")))
                 (snd (get_page_content_as_pdf E Scenario.docs (py "102")
                         (started page w))))))
      html
      (snd (html_to_pdf E Scenario.docs
              (html_with_title (py "Setup Guide") html)
              (pdf_path Scenario.docs page)
              (snd (get_page_html_content E Scenario.docs (py "102")
                      (emit (EvLog INFO (MsgTryingHtml (py "Setup Guide")))
                         (snd (get_page_content_as_pdf E Scenario.docs
                                 (py "102") (started page w))))))))
      Habs eq_refl eq_refl eq_refl ltac:(discriminate) eq_refl)
      as (w5 & Hrun & _ & Hfs).
    exists w5. split; [exact Hrun|]. rewrite (Hfs eq_refl). reflexivity.
  - destruct (C7_raw_html_fallback E' Scenario.docs page w) as [_ Hwhy].
    exists (snd (download_page E' Scenario.docs page w)).
    assert (Hrun : download_page E' Scenario.docs page w
                   = (Ok false, snd (download_page E' Scenario.docs page w)))
      by reflexivity.
    split; [exact Hrun|].
    destruct (Hwhy _ Hrun) as [(pdf & w2 & h & w3 & H1 & _ & H3 & H4)|H];
      [|exact H].
    exfalso. vm_compute in H1. injection H1 as <- <-.
    vm_compute in H3. injection H3 as <- _. discriminate H4.
Defined.

Section Cascade.

Context (E : Env) (self : ConfluenceDownloader).

Lemma is_pdf_response_spec r :
  is_pdf_response r = true
  ↔ status_code r = 200
    ∧ ∃ rest, content_type r = Some (py "application/pdf" ++ rest).
Proof.
  unfold is_pdf_response. rewrite andb_true_iff, Z.eqb_eq, startswith_prefix.
  split; intros [Hs [rest Hct]]; (split; [done|]); exists rest.
  - destruct (content_type r) as [ct|]; simpl in Hct; by subst.
  - by rewrite Hct.
Qed.

Lemma export_value_spec res bts :
  export_value res = Some bts
  ↔ ∃ r, res = GetResponse r
         ∧ status_code r = 200
         ∧ (∃ rest, content_type r = Some (py "application/pdf" ++ rest))
         ∧ bts = content r.
Proof.
  unfold export_value. split.
  - destruct res as [e|r]; [done|].
    destruct (is_pdf_response r) eqn:Hr; [|done].
    intros [= <-]. apply is_pdf_response_spec in Hr as [Hs Hct]. by exists r.
  - intros (r & -> & Hs & Hct & ->).
    by rewrite (proj2 (is_pdf_response_spec r) (conj Hs Hct)).
Qed.

Lemma requests_of_app l1 l2 :
  requests_of (l1 ++ l2) = requests_of l1 ++ requests_of l2.
Proof. apply omap_app. Qed.

Lemma requests_of_export_events pid c :
  requests_of (export_events E self pid c)
  = export_request_1 self pid
    :: match export_value (env_get E c (export_request_1 self pid)) with
       | Some _ => []
       | None => [export_request_2 self pid]
       end.
Proof.
  unfold export_events.
  destruct (env_get E c (export_request_1 self pid)) as [e|r]; simpl.
  - by destruct (env_get E (S c) (export_request_2 self pid)).
  - destruct (is_pdf_response r); simpl; [done|].
    by destruct (env_get E (S c) (export_request_2 self pid)).
Qed.

(** The requests of one page, in order: export A; export B unless A was
    accepted; the content endpoint unless non-empty PDF bytes came back. *)
Lemma download_page_requests page w :
  ¬ on_disk w (pdf_path self page) →
  requests_of (new_events w (snd (download_page E self page w)))
  = export_request_1 self (page_id page)
    :: match export_value
               (env_get E (clock w) (export_request_1 self (page_id page)))
       with
       | Some _ => []
       | None => [export_request_2 self (page_id page)]
       end
    ++ (if truthy (export_result E self (page_id page) (clock w))
        then [] else [content_request self (page_id page)]).
Proof.
  intros Habs. rewrite download_page_absent by done.
  unfold mbind at 1, M_bind at 1, bind at 1.
  rewrite get_page_content_as_pdf_run. rewrite clock_started.
  assert (Hfin : ∀ w' tail,
    trace w' = trace w
               ++ [EvLog INFO (MsgDownloadingPage (page_title page)
                                 (page_id page)); EvSleep 1000]
               ++ export_events E self (page_id page) (clock w) ++ tail →
    requests_of (new_events w w')
    = export_request_1 self (page_id page)
      :: match export_value
                 (env_get E (clock w) (export_request_1 self (page_id page)))
         with
         | Some _ => []
         | None => [export_request_2 self (page_id page)]
         end
      ++ requests_of tail).
  { intros w' tail Htr. rewrite (new_events_app _ _ _ Htr).
    rewrite (requests_of_app [_; _]), requests_of_app,
      requests_of_export_events. reflexivity. }
  destruct (truthy (export_result E self (page_id page) (clock w))) eqn:Hpdf.
  - unfold_monad.
    destruct (env_write E _ _ _) as [|[c|]]; world_cbn;
      (erewrite Hfin;
       [|world_cbn;
         rewrite ?trace_started; rewrite <- ?app_assoc; reflexivity]);
      reflexivity.
  - unfold mbind at 1 2, M_bind at 1 2, bind at 1 2, log at 1.
    rewrite get_page_html_content_run.
    world_cbn.
    destruct (json_value _) as [d|e|e].
    + destruct (truthy (Some (html_of_doc d))).
      * unfold mbind at 1, M_bind at 1, bind at 1.
        rewrite html_to_pdf_run.
        world_cbn.
        destruct (env_render E _ _ _ _) as [|[b|]|b]; unfold_monad;
          try (destruct (env_write E _ _ _) as [|[c|]]); world_cbn;
          (erewrite Hfin;
           [|world_cbn;
             rewrite ?trace_started; rewrite <- ?app_assoc; reflexivity]);
          reflexivity.
      * unfold_monad. world_cbn.
        erewrite Hfin;
          [|world_cbn;
            rewrite ?trace_started; rewrite <- ?app_assoc; reflexivity].
        reflexivity.
    + unfold_monad. world_cbn.
      erewrite Hfin;
        [|world_cbn;
          rewrite ?trace_started; rewrite <- ?app_assoc; reflexivity].
      reflexivity.
    + world_cbn.
      erewrite Hfin;
        [|world_cbn;
          rewrite ?trace_started; rewrite <- ?app_assoc; reflexivity].
      reflexivity.
Qed.

End Cascade.

(** C1 (amended): for a page whose PDF is not on disk the requests are, in
    order, export endpoint A, then endpoint B unless A's response was
    accepted, then the content endpoint unless non-empty PDF bytes were
    obtained; an export attempt yields bytes exactly when the response has
    status 200 and a content type that begins with [application/pdf], and
    the bytes are the response body; and when A answers with another
    content type, B answers 500, the content endpoint answers with a
    document whose HTML is not empty and the conversion succeeds, the PDF
    is written from the rendered HTML and the page is reported
    successful. *)
Theorem C1_fetch_cascade (E : Env) (self : ConfluenceDownloader)
    (page : Page) (w : world) :
  ¬ on_disk w (pdf_path self page) →
  let pid := page_id page in
  let a := env_get E (clock w) (export_request_1 self pid) in
  let b := env_get E (S (clock w)) (export_request_2 self pid) in
  let c := env_get E (S (S (clock w))) (content_request self pid) in
  requests_of (new_events w (snd (download_page E self page w)))
  = export_request_1 self pid
    :: match export_value a with
       | Some _ => []
       | None => [export_request_2 self pid]
       end
    ++ (if truthy (match export_value a with
                   | Some pdf => Some pdf
                   | None => export_value b
                   end)
        then [] else [content_request self pid])
  ∧ (∀ u ps failed w0,
       fst (try_export E u ps failed w0)
       = Ok (export_value (env_get E (clock w0) (mkRequest u ps))))
  ∧ (∀ res bts,
       export_value res = Some bts
       ↔ ∃ r, res = GetResponse r
              ∧ status_code r = 200
              ∧ (∃ rest, content_type r = Some (py "application/pdf" ++ rest))
              ∧ bts = content r)
  ∧ (∀ ra rb rc d pdf,
       a = GetResponse ra →
       (∀ rest, content_type ra ≠ Some (py "application/pdf" ++ rest)) →
       b = GetResponse rb →
       status_code rb = 500 →
       c = GetResponse rc →
       status_passes rc = true →
       json rc = JsonDoc d →
       html_of_doc d ≠ [] →
       let html := html_with_title (page_title page) (html_of_doc d) in
       let render :=
         EvRender (styled_html html) (base_url self) (pdf_path self page)
                  (RenderOk pdf) in
       env_render E (S (S (S (clock w)))) (styled_html html) (base_url self)
         (pdf_path self page) = RenderOk pdf →
       ∃ w', download_page E self page w = (Ok true, w')
             ∧ fs w' = <[pdf_path self page := Binary pdf]> (fs w)
             ∧ render ∈ new_events w w'
             ∧ Forall (fun ev => is_write ev = true → ev = render)
                 (new_events w w')).
Proof.
  intros Habs pid a b c. subst pid. split_and!.
  - apply (download_page_requests E self page w Habs).
  - intros u ps failed w0. by rewrite try_export_run.
  - apply export_value_spec.
  - intros ra rb rc d pdf Ha Hct Hb Hsb Hc Hst Hjson Hne html render Hr.
    assert (Hra : is_pdf_response ra = false).
    { destruct (is_pdf_response ra) eqn:Hra; [|done].
      apply is_pdf_response_spec in Hra as [_ [rest Hrest]].
      by destruct (Hct rest). }
    assert (Hrb : is_pdf_response rb = false).
    { unfold is_pdf_response. by rewrite Hsb. }
    assert (Hexp : export_events E self (page_id page) (clock w)
                   = [EvGet (export_request_1 self (page_id page)) a;
                      EvGet (export_request_2 self (page_id page)) b]).
    { unfold export_events. fold a b. rewrite Ha, Hb. simpl.
      by rewrite Hra. }
    rewrite download_page_absent by done.
    unfold mbind at 1, M_bind at 1, bind at 1.
    rewrite get_page_content_as_pdf_run. rewrite clock_started, Hexp.
    unfold export_result, export_calls. fold a b.
    rewrite Ha, Hb. unfold export_value. rewrite Hra, Hrb. world_cbn.
    unfold mbind at 1 2, M_bind at 1 2, bind at 1 2, log at 1.
    rewrite get_page_html_content_run. world_cbn.
    change (2 + clock w)%nat with (S (S (clock w))). fold c.
    unfold json_value. rewrite Hc, Hst, Hjson.
    assert (Htr : truthy (Some (html_of_doc d)) = true)
      by (by destruct (html_of_doc d)).
    rewrite Htr.
    change (default [] (Some (html_of_doc d))) with (html_of_doc d).
    fold html.
    unfold mbind at 1, M_bind at 1, bind at 1.
    rewrite html_to_pdf_run. world_cbn.
    rewrite Hr. unfold_monad. eexists. split; [reflexivity|]. world_cbn.
    split; [by rewrite fs_started|].
    new_events_simpl. fold render. split.
    + set_solver.
    + repeat constructor; done.
Qed.

Lemma C1_fetch_cascade_witness :
  let html := py "<p>steps</p>" in
  let E := mkEnv (Scenario.remote Scenario.docs 100 []
                    (GetResponse Scenario.login_page)
                    (GetResponse Scenario.server_error)
                    (Scenario.doc_with_html html))
                 Scenario.disk_ok Scenario.renderer_ok in
  let w := Scenario.fresh in
  let page := Scenario.setup in
  ¬ on_disk w (pdf_path Scenario.docs page)
  ∧ requests_of (new_events w (snd (download_page E Scenario.docs page w)))
    = [export_request_1 Scenario.docs (py "102");
       export_request_2 Scenario.docs (py "102");
       content_request Scenario.docs (py "102")]
  ∧ ∃ w', download_page E Scenario.docs page w = (Ok true, w')
          ∧ fs w' = {[ py "data/confluence_DOCS/Setup Guide_102.pdf"
                       := Binary Scenario.rendered ]}.
Proof.
  intros html E w page.
  assert (Habs : ¬ on_disk w (pdf_path Scenario.docs page)).
  { unfold on_disk, w. simpl. rewrite lookup_empty. by intros [? ?]. }
  destruct (C1_fetch_cascade E Scenario.docs page w Habs)
    as (Hreq & _ & _ & Hscen).
  split; [exact Habs|]. split; [exact Hreq|].
  destruct (Hscen Scenario.login_page Scenario.server_error
              (Scenario.json_response (Scenario.doc_with_html html))
              (Scenario.doc_with_html html) Scenario.rendered
              eq_refl ltac:(intros rest; discriminate) eq_refl eq_refl
              eq_refl eq_refl eq_refl ltac:(discriminate) eq_refl)
    as (w' & Hrun & Hfs & _).
  exists w'. split; [exact Hrun|]. rewrite Hfs. reflexivity.
Defined.

(** The scenario of C1 as it is worded does not determine the outcome:
    with a content response that succeeds but carries no HTML the page is
    marked failed and nothing is written, and with a renderer that is not
    installed the file written is the raw HTML, not a rendering of it. *)
Lemma C1_counterexample :
  let get d := Scenario.remote Scenario.docs 100 []
                 (GetResponse Scenario.login_page)
                 (GetResponse Scenario.server_error) d in
  let w := Scenario.fresh in
  let page := Scenario.setup in
  let E1 := mkEnv (get Scenario.doc_without_body)
                  Scenario.disk_ok Scenario.renderer_ok in
  let E2 := mkEnv (get (Scenario.doc_with_html (py "<p>steps</p>")))
                  Scenario.disk_ok Scenario.renderer_missing in
  (env_get E1 0 (export_request_1 Scenario.docs (py "102"))
   = GetResponse Scenario.login_page
   ∧ content_type Scenario.login_page = Some (py "text/html; charset=utf-8")
   ∧ env_get E1 1 (export_request_2 Scenario.docs (py "102"))
     = GetResponse Scenario.server_error
   ∧ status_code Scenario.server_error = 500
   ∧ env_get E1 2 (content_request Scenario.docs (py "102"))
     = GetResponse (Scenario.json_response Scenario.doc_without_body)
   ∧ fst (get_page_html_content E1 Scenario.docs (py "102")
            (mkWorld ∅ 2 [])) = Ok (Some [])
   ∧ fst (download_page E1 Scenario.docs page w) = Ok false
   ∧ fs (snd (download_page E1 Scenario.docs page w)) = ∅)
  ∧ (fst (get_page_html_content E2 Scenario.docs (py "102")
            (mkWorld ∅ 2 [])) = Ok (Some (py "<p>steps</p>"))
     ∧ fst (download_page E2 Scenario.docs page w) = Ok true
     ∧ fs (snd (download_page E2 Scenario.docs page w))
       = {[ py "data/confluence_DOCS/Setup Guide_102.html"
            := Text (py "<h1>Setup Guide</h1><p>steps</p>") ]}).
Proof. vm_compute. repeat split; reflexivity. Qed.

(* ===================================================================== *)
(** ** The listing *)
(* ===================================================================== *)

Section ListingRuns.

Context (E : Env) (self : ConfluenceDownloader).

(** One turn of the loop, by what the remote answers. *)
Lemma get_space_pages_turn_run limit pages start w :
  let req := listing_request self limit start in
  let res := env_get E (clock w) req in
  get_space_pages_turn E self limit pages start w
  = match json_value res with
    | Decoded d =>
        let current_pages := default [] (results d) in
        let fetched :=
          EvLog INFO (MsgFetched (length current_pages)
                        (length (pages ++ current_pages))) in
        if Z.of_nat (length current_pages) <? limit
        then (Ok (Break (pages ++ current_pages)),
              mkWorld (fs w) (S (clock w))
                      (trace w ++ [EvGet req res; fetched]))
        else (Ok (Continue (pages ++ current_pages) (start + limit)),
              mkWorld (fs w) (S (clock w))
                      (trace w ++ [EvGet req res; fetched; EvSleep 500]))
    | Caught e =>
        (Ok (Break pages),
         mkWorld (fs w) (S (clock w))
                 (trace w ++ [EvGet req res;
                              EvLog ERROR (MsgErrorFetchingPages e)]))
    | Escapes e =>
        (Raise e, mkWorld (fs w) (S (clock w)) (trace w ++ [EvGet req res]))
    end.
Proof.
  intros req res. unfold get_space_pages_turn. unfold_monad.
  fold (listing_request self limit start). fold req. fold res.
  unfold json_value, status_passes.
  destruct res as [e|r]; simpl.
  - destruct e; world_eq.
  - destruct ((400 <=? status_code r) && (status_code r <? 600)); simpl;
      [world_eq|].
    destruct (json r) as [e|d]; simpl; [destruct e; world_eq|].
    destruct (Z.of_nat (length (default [] (results d))) <? limit);
      world_eq.
Qed.

Lemma world_eta w : mkWorld (fs w) (clock w) (trace w) = w.
Proof. by destruct w. Qed.

(** The turns that fetch full batches. *)
Lemma get_space_pages_loop_full limit batches :
  ∀ fuel pages start w,
    Forall (fun b => limit ≤ Z.of_nat (length b)) batches →
    served E self limit (clock w) start batches →
    get_space_pages_loop E self (length batches + fuel) limit pages start w
    = get_space_pages_loop E self fuel limit (pages ++ concat batches)
        (start + Z.of_nat (length batches) * limit)
        (mkWorld (fs w) (clock w + length batches)
           (trace w
            ++ full_events E self limit (clock w) start (length pages)
                 batches)).
Proof.
  induction batches as [|b bs IH]; intros fuel pages start w Hfull Hserved.
  - simpl. rewrite !app_nil_r, Nat.add_0_r, Z.add_0_r. by rewrite world_eta.
  - destruct Hserved as [Hb Hbs]. apply Forall_cons in Hfull as [Hlen Hfull].
    cbn [length Nat.add get_space_pages_loop].
    unfold mbind at 1, M_bind at 1, bind at 1.
    rewrite get_space_pages_turn_run. cbv zeta.
    unfold listing_batch in Hb.
    destruct (json_value _) as [d| |]; [|done|done].
    injection Hb as Hb. rewrite Hb.
    rewrite (proj2 (Z.ltb_ge _ _) Hlen).
    rewrite IH by done. cbn [fs clock trace concat full_events].
    rewrite length_app, <- !app_assoc. cbn [app].
    replace (start + Z.of_nat (S (length bs)) * limit)
      with (start + limit + Z.of_nat (length bs) * limit) by lia.
    replace (clock w + S (length bs))%nat
      with (S (clock w) + length bs)%nat by lia.
    reflexivity.
Qed.

Lemma requests_of_full_events limit batches :
  ∀ c start n,
    requests_of (full_events E self limit c start n batches)
    = map (fun k => listing_request self limit (start + Z.of_nat k * limit))
          (seq 0 (length batches)).
Proof.
  induction batches as [|b bs IH]; intros c start n; [done|].
  cbn [full_events length seq map]. rewrite requests_of_app, IH.
  rewrite <- seq_shift, map_map. cbn [requests_of omap list_omap app].
  f_equal; [f_equal; lia|]. apply map_ext. intros k. f_equal. lia.
Qed.

Lemma served_app limit batches1 batches2 :
  ∀ c start,
    served E self limit c start (batches1 ++ batches2)
    ↔ served E self limit c start batches1
      ∧ served E self limit (c + length batches1)
          (start + Z.of_nat (length batches1) * limit) batches2.
Proof.
  induction batches1 as [|b bs IH]; intros c start.
  - cbn [app served length]. rewrite Nat.add_0_r, Z.add_0_r. tauto.
  - cbn [app served length]. rewrite IH.
    replace (c + S (length bs))%nat with (S c + length bs)%nat by lia.
    replace (start + Z.of_nat (S (length bs)) * limit)
      with (start + limit + Z.of_nat (length bs) * limit) by lia.
    tauto.
Qed.

Lemma transport_failure_caught res :
  transport_failure res → ∃ e, json_value res = Caught e.
Proof.
  unfold json_value.
  intros [->|(r & -> & [Hs|[Hs Hj]])]; [by eexists|..]; rewrite Hs.
  - by eexists.
  - rewrite Hj. by eexists.
Qed.

End ListingRuns.

(** C2: when the remote answers the successive listing requests with N
    batches of exactly [limit] pages and then one shorter batch,
    [get_space_pages] returns the N+1 batches concatenated in the order
    received, after exactly N+1 requests whose [start] offsets are 0,
    [limit], 2 [limit], ..., and stops there. *)
Theorem C2_pagination (E : Env) (self : ConfluenceDownloader) (limit : Z)
    (batches : list (list Page)) (last : list Page) (w : world) (fuel : nat) :
  Forall (fun b => Z.of_nat (length b) = limit) batches →
  Z.of_nat (length last) < limit →
  served E self limit (clock w) 0 (batches ++ [last]) →
  (length batches < fuel)%nat →
  ∃ w',
    get_space_pages E self fuel limit w = (Ok (concat batches ++ last), w')
    ∧ requests_of (new_events w w')
      = map (fun k => listing_request self limit (Z.of_nat k * limit))
            (seq 0 (S (length batches)))
    ∧ clock w' = (clock w + S (length batches))%nat
    ∧ fs w' = fs w.
Proof.
  intros Hfull Hshort Hserved Hfuel.
  apply served_app in Hserved as [Hbatches [Hlast _]].
  unfold listing_batch in Hlast.
  assert (Hge : Forall (fun b => limit ≤ Z.of_nat (length b)) batches).
  { eapply Forall_impl; [exact Hfull|]. intros b Hb. simpl in Hb. lia. }
  replace fuel with (length batches + S (fuel - S (length batches)))%nat
    by lia.
  unfold get_space_pages. unfold mbind at 1, M_bind at 1, bind at 1.
  rewrite get_space_pages_loop_full by done.
  cbn [get_space_pages_loop].
  unfold mbind at 1, M_bind at 1, bind at 1.
  rewrite get_space_pages_turn_run. cbv zeta. cbn [fs clock trace].
  destruct (json_value _) as [d| |]; [|done|done].
  injection Hlast as Hlast. rewrite Hlast.
  rewrite (proj2 (Z.ltb_lt _ _) Hshort).
  unfold_monad. eexists. split; [reflexivity|].
  split_and!; [|cbn [clock emit]; lia|done].
  unfold new_events. cbn [trace emit]. rewrite <- !app_assoc.
  rewrite drop_app_length, !requests_of_app, requests_of_full_events.
  rewrite seq_S, map_app. cbn [app length]. reflexivity.
Qed.

(** C8: when the listing request fails at transport level after N full
    batches were received, [get_space_pages] does not raise: it returns
    exactly the pages of those N batches, after N+1 requests. *)
Theorem C8_listing_failure_keeps_partial (E : Env)
    (self : ConfluenceDownloader) (limit : Z) (batches : list (list Page))
    (w : world) (fuel : nat) :
  Forall (fun b => limit ≤ Z.of_nat (length b)) batches →
  served E self limit (clock w) 0 batches →
  transport_failure
    (env_get E (clock w + length batches)
       (listing_request self limit (Z.of_nat (length batches) * limit))) →
  (length batches < fuel)%nat →
  ∃ w',
    get_space_pages E self fuel limit w = (Ok (concat batches), w')
    ∧ requests_of (new_events w w')
      = map (fun k => listing_request self limit (Z.of_nat k * limit))
            (seq 0 (S (length batches)))
    ∧ clock w' = (clock w + S (length batches))%nat
    ∧ fs w' = fs w.
Proof.
  intros Hfull Hserved Hfail Hfuel.
  apply transport_failure_caught in Hfail as [e He].
  replace fuel with (length batches + S (fuel - S (length batches)))%nat
    by lia.
  unfold get_space_pages. unfold mbind at 1, M_bind at 1, bind at 1.
  rewrite get_space_pages_loop_full by done.
  cbn [get_space_pages_loop].
  unfold mbind at 1, M_bind at 1, bind at 1.
  rewrite get_space_pages_turn_run. cbv zeta. cbn [fs clock trace].
  rewrite Z.add_0_l, He.
  unfold_monad. eexists. split; [reflexivity|].
  split_and!; [|cbn [clock emit]; lia|done].
  unfold new_events. cbn [trace emit]. rewrite <- !app_assoc.
  rewrite drop_app_length, !requests_of_app, requests_of_full_events.
  rewrite seq_S, map_app. cbn [app length]. reflexivity.
Qed.

Lemma C2_pagination_witness :
  let batches := [[Scenario.intro; Scenario.setup]] in
  let last := [Scenario.third] in
  let E := mkEnv (Scenario.remote Scenario.docs 2 (batches ++ [last])
                    (GetRaises OtherException) (GetRaises OtherException)
                    Scenario.doc_without_body)
                 Scenario.disk_ok Scenario.renderer_ok in
  let w := Scenario.fresh in
  (Forall (fun b => Z.of_nat (length b) = 2) batches
   ∧ Z.of_nat (length last) < 2
   ∧ served E Scenario.docs 2 (clock w) 0 (batches ++ [last]))
  ∧ ∃ w',
      get_space_pages E Scenario.docs 2 2 w
      = (Ok [Scenario.intro; Scenario.setup; Scenario.third], w')
      ∧ requests_of (new_events w w')
        = [listing_request Scenario.docs 2 0;
           listing_request Scenario.docs 2 2]
      ∧ clock w' = 2%nat
      ∧ fs w' = fs w.
Proof.
  intros batches last E w.
  assert (Hfull : Forall (fun b => Z.of_nat (length b) = 2) batches)
    by (repeat constructor).
  assert (Hshort : Z.of_nat (length last) < 2) by (simpl; lia).
  assert (Hserved : served E Scenario.docs 2 (clock w) 0 (batches ++ [last]))
    by (repeat split; reflexivity).
  split; [by split_and!|].
  exact (C2_pagination E Scenario.docs 2 batches last w 2 Hfull Hshort
           Hserved ltac:(simpl; lia)).
Defined.

Lemma C8_listing_failure_keeps_partial_witness :
  let batches := [[Scenario.intro; Scenario.setup]] in
  let E := mkEnv (fun n r =>
                    match n with
                    | 1%nat => GetRaises RequestException
                    | _ => Scenario.remote Scenario.docs 2
                             (batches ++ [[Scenario.third]])
                             (GetRaises OtherException)
                             (GetRaises OtherException)
                             Scenario.doc_without_body n r
                    end)
                 Scenario.disk_ok Scenario.renderer_ok in
  let w := Scenario.fresh in
  (Forall (fun b => 2 ≤ Z.of_nat (length b)) batches
   ∧ served E Scenario.docs 2 (clock w) 0 batches
   ∧ env_get E 1 (listing_request Scenario.docs 2 2)
     = GetRaises RequestException)
  ∧ ∃ w',
      get_space_pages E Scenario.docs 2 2 w
      = (Ok [Scenario.intro; Scenario.setup], w')
      ∧ requests_of (new_events w w')
        = [listing_request Scenario.docs 2 0;
           listing_request Scenario.docs 2 2]
      ∧ clock w' = 2%nat
      ∧ fs w' = fs w.
Proof.
  intros batches E w.
  assert (Hfull : Forall (fun b => 2 ≤ Z.of_nat (length b)) batches)
    by (repeat constructor; simpl; lia).
  assert (Hserved : served E Scenario.docs 2 (clock w) 0 batches)
    by (repeat split; reflexivity).
  split; [by split_and!|].
  exact (C8_listing_failure_keeps_partial E Scenario.docs 2 batches w 2
           Hfull Hserved (or_introl eq_refl) ltac:(simpl; lia)).
Defined.

(* ===================================================================== *)
(** ** The whole run *)
(* ===================================================================== *)

Section Runs.

Context (E : Env) (self : ConfluenceDownloader).

Lemma emits_app evs1 evs2 w : emits (evs1 ++ evs2) w = emits evs2 (emits evs1 w).
Proof. revert w. induction evs1 as [|ev evs1 IH]; intros w; simpl; [done|apply IH]. Qed.

(** The listing never touches the files. *)
Lemma get_space_pages_loop_fs fuel limit :
  ∀ pages start w,
    fs (snd (get_space_pages_loop E self fuel limit pages start w)) = fs w.
Proof.
  induction fuel as [|fuel IH]; intros pages start w; [done|].
  cbn [get_space_pages_loop]. unfold mbind at 1, M_bind at 1, bind at 1.
  rewrite get_space_pages_turn_run. cbv zeta.
  destruct (json_value _) as [d|e|e]; [|done|done].
  destruct (_ <? _); [done|]. by rewrite IH.
Qed.

Lemma get_space_pages_fs fuel limit w r w' :
  get_space_pages E self fuel limit w = (r, w') → fs w' = fs w.
Proof.
  unfold get_space_pages. unfold mbind at 1, M_bind at 1, bind at 1.
  pose proof (get_space_pages_loop_fs fuel limit [] 0 w) as Hfs.
  destruct (get_space_pages_loop E self fuel limit [] 0 w) as [[pages|e|] w1];
    unfold_monad; intros [= _ <-]; exact Hfs.
Qed.

(** An empty listing: one request, one short batch. *)
Lemma get_space_pages_empty fuel w :
  listing_batch (env_get E (clock w) (listing_request self 100 0)) = Some [] →
  (0 < fuel)%nat →
  get_space_pages E self fuel 100 w
  = (Ok [],
     mkWorld (fs w) (S (clock w))
       (trace w
        ++ [EvGet (listing_request self 100 0)
              (env_get E (clock w) (listing_request self 100 0));
            EvLog INFO (MsgFetched 0 0);
            EvLog INFO (MsgTotalPagesFound 0)])).
Proof.
  intros Hb Hfuel. destruct fuel as [|fuel]; [lia|].
  unfold get_space_pages. unfold mbind at 1, M_bind at 1, bind at 1.
  cbn [get_space_pages_loop]. unfold mbind at 1, M_bind at 1, bind at 1.
  rewrite get_space_pages_turn_run. cbv zeta.
  unfold listing_batch in Hb.
  destruct (json_value _) as [d| |]; [|done|done].
  injection Hb as Hb. rewrite Hb. cbn [length Z.of_nat Z.ltb Z.compare app].
  unfold_monad. world_eq.
Qed.

(** A loop over pages that are all on disk skips them all. *)
Lemma download_loop_all_on_disk n pages :
  ∀ i s f w,
    Forall (fun page => on_disk w (pdf_path self page)) pages →
    download_loop E self n pages i s f w
    = (Ok ((s + length pages)%nat, f), emits (skip_events n i pages) w).
Proof.
  induction pages as [|page rest IH]; intros i s f w Hall.
  - simpl. unfold_monad. by rewrite Nat.add_0_r.
  - apply Forall_cons in Hall as [Hpage Hrest].
    cbn [download_loop].
    unfold mbind at 1 2, M_bind at 1 2, bind at 1 2, log at 1.
    rewrite download_page_on_disk by done.
    rewrite IH by done. cbn [length skip_events].
    rewrite emits_app.
    replace (S s + length rest)%nat with (s + S (length rest))%nat by lia.
    reflexivity.
Qed.

(** Files are never removed. *)
Lemma on_disk_insert (m : gmap str file_content) (p k : str) c :
  is_Some (m !! k) → is_Some (<[p := c]> m !! k).
Proof.
  intros H. destruct (decide (p = k)) as [->|Hne].
  - rewrite lookup_insert_eq. by eexists.
  - by rewrite lookup_insert_ne.
Qed.

Ltac outcome_finish :=
  split;
  [ let k := fresh "k" in
    let Hk := fresh "Hk" in
    intros k Hk; unfold on_disk in *; world_cbn; rewrite ?fs_started;
    repeat apply on_disk_insert; exact Hk
  | eexists; split;
    [ world_cbn; rewrite ?trace_started; rewrite <- ?app_assoc; reflexivity
    | let Hr := fresh "Hr" in
      intros Hr; try discriminate Hr;
      first
        [ left; unfold on_disk; world_cbn; rewrite lookup_insert_eq;
          by eexists
        | right;
          repeat first [ apply Exists_cons_hd; by eexists
                       | apply Exists_cons_tl
                       | apply Exists_app; right ] ] ] ].

(** What one page leaves behind: the files that were there, a longer
    trace, and, when it reports success, either the PDF on disk or the log
    line of the raw-HTML fallback. *)
Lemma download_page_outcome page w r w' :
  download_page E self page w = (r, w') →
  (∀ k, on_disk w k → on_disk w' k)
  ∧ ∃ evs, trace w' = trace w ++ evs
           ∧ (r = Ok true →
              on_disk w' (pdf_path self page) ∨ Exists saved_as_html evs).
Proof.
  destruct (decide (on_disk w (pdf_path self page))) as [Hon|Habs].
  { rewrite download_page_on_disk by done. intros [= <- <-]. split; [done|].
    eexists. split; [apply (trace_emits [_; _])|]. intros _. by left. }
  rewrite download_page_absent by done.
  unfold mbind at 1, M_bind at 1, bind at 1.
  rewrite get_page_content_as_pdf_run. rewrite clock_started.
  destruct (truthy (export_result E self (page_id page) (clock w))) eqn:Hpdf.
  - unfold_monad.
    destruct (env_write E _ _ _) as [|[c|]]; world_cbn;
      intros [= <- <-]; outcome_finish.
  - unfold mbind at 1 2, M_bind at 1 2, bind at 1 2, log at 1.
    rewrite get_page_html_content_run. world_cbn.
    destruct (json_value _) as [d|e|e].
    + destruct (truthy (Some (html_of_doc d))).
      * unfold mbind at 1, M_bind at 1, bind at 1.
        rewrite html_to_pdf_run. world_cbn.
        destruct (env_render E _ _ _ _) as [|[b|]|b]; unfold_monad;
          try (destruct (env_write E _ _ _) as [|[c|]]); world_cbn;
          intros [= <- <-]; outcome_finish.
      * unfold_monad. intros [= <- <-]. outcome_finish.
    + unfold_monad. world_cbn. intros [= <- <-]. outcome_finish.
    + intros [= <- <-]. outcome_finish.
Qed.

(** What the loop leaves behind; when it counts no new failure and logs no
    raw-HTML fallback, every page has its PDF on disk. *)
Lemma download_loop_outcome n pages :
  ∀ i s f w s' f' w',
    download_loop E self n pages i s f w = (Ok (s', f'), w') →
    (f ≤ f')%nat
    ∧ (∀ k, on_disk w k → on_disk w' k)
    ∧ ∃ evs, trace w' = trace w ++ evs
             ∧ (f' = f → ¬ Exists saved_as_html evs →
                Forall (fun page => on_disk w' (pdf_path self page)) pages).
Proof.
  induction pages as [|page rest IH]; intros i s f w s' f' w'.
  - simpl. unfold_monad. intros [= <- <- <-]. split; [done|]. split; [done|].
    exists []. split; [by rewrite app_nil_r|]. by constructor.
  - cbn [download_loop].
    unfold mbind at 1 2, M_bind at 1 2, bind at 1 2, log at 1.
    destruct (download_page E self page _) as [r w1] eqn:Hpage.
    apply download_page_outcome in Hpage as (Hgrow1 & evs1 & Htr1 & Hst).
    destruct r as [[|]|e|]; [| |done|done]; intros Hloop;
      apply IH in Hloop as (Hle & Hgrow & evs2 & Htr2 & Hall).
    + split; [done|]. split; [intros k Hk; by apply Hgrow, Hgrow1|].
      exists ([EvLog INFO (MsgProcessing i n)] ++ evs1 ++ evs2).
      split; [rewrite Htr2, Htr1; cbn [trace emit]; by rewrite <- !app_assoc|].
      intros Hf Hno. apply Forall_cons. split.
      * destruct (Hst eq_refl) as [Hd|Hs]; [by apply Hgrow|].
        destruct Hno. apply Exists_app. right. apply Exists_app. by left.
      * apply Hall; [done|]. intros Hex. destruct Hno.
        apply Exists_app. right. apply Exists_app. by right.
    + split; [lia|]. split; [intros k Hk; by apply Hgrow, Hgrow1|].
      exists ([EvLog INFO (MsgProcessing i n)] ++ evs1 ++ evs2).
      split; [rewrite Htr2, Htr1; cbn [trace emit]; by rewrite <- !app_assoc|].
      intros Hf. lia.
Qed.

End Runs.

(** C3 (amended): when the listing of a space comes back empty,
    [get_space_pages] returns the empty list without raising, and
    [download_all_pages] returns after one error line, having made the one
    listing request and nothing else: no page is processed and the lines of
    the summary are not emitted. *)
Theorem C3_empty_space (E : Env) (self : ConfluenceDownloader) (w : world)
    (fuel : nat) :
  listing_batch (env_get E (clock w) (listing_request self 100 0)) = Some [] →
  (0 < fuel)%nat →
  (∃ w1, get_space_pages E self fuel 100 w = (Ok [], w1))
  ∧ ∃ w',
      download_all_pages E self fuel w = (Ok tt, w')
      ∧ fs w' = fs w
      ∧ clock w' = S (clock w)
      ∧ new_events w w'
        = [EvLog INFO (MsgStarting (space_key self));
           EvGet (listing_request self 100 0)
             (env_get E (clock w) (listing_request self 100 0));
           EvLog INFO (MsgFetched 0 0);
           EvLog INFO (MsgTotalPagesFound 0);
           EvLog ERROR MsgNoPagesFound].
Proof.
  intros Hb Hfuel. split.
  - rewrite get_space_pages_empty by done. by eexists.
  - unfold download_all_pages.
    unfold mbind at 1 2, M_bind at 1 2, bind at 1 2, log at 1.
    rewrite get_space_pages_empty by done.
    unfold_monad. eexists. split; [reflexivity|].
    split_and!; [done|done|]. by new_events_simpl.
Qed.

Lemma C3_empty_space_witness :
  let E := mkEnv (Scenario.remote Scenario.docs 100 []
                    (GetRaises OtherException) (GetRaises OtherException)
                    Scenario.doc_without_body)
                 Scenario.disk_ok Scenario.renderer_ok in
  let w := Scenario.fresh in
  listing_batch (env_get E (clock w) (listing_request Scenario.docs 100 0))
  = Some []
  ∧ (∃ w1, get_space_pages E Scenario.docs 1 100 w = (Ok [], w1))
  ∧ ∃ w',
      download_all_pages E Scenario.docs 1 w = (Ok tt, w')
      ∧ fs w' = fs w
      ∧ clock w' = 1%nat
      ∧ new_events w w'
        = [EvLog INFO (MsgStarting (py "DOCS"));
           EvGet (listing_request Scenario.docs 100 0)
             (GetResponse (Scenario.listing_of []));
           EvLog INFO (MsgFetched 0 0);
           EvLog INFO (MsgTotalPagesFound 0);
           EvLog ERROR MsgNoPagesFound].
Proof.
  intros E w. split; [reflexivity|].
  exact (C3_empty_space E Scenario.docs w 1 eq_refl ltac:(lia)).
Defined.

(** On a space without pages the run reports no summary at all: the trace
    ends with the error line and holds neither count. *)
Lemma C3_counterexample :
  let E := mkEnv (Scenario.remote Scenario.docs 100 []
                    (GetRaises OtherException) (GetRaises OtherException)
                    Scenario.doc_without_body)
                 Scenario.disk_ok Scenario.renderer_ok in
  let run := download_all_pages E Scenario.docs 1 Scenario.fresh in
  fst (get_space_pages E Scenario.docs 1 100 Scenario.fresh) = Ok []
  ∧ fst run = Ok tt
  ∧ EvLog ERROR MsgNoPagesFound ∈ trace (snd run)
  ∧ ¬ (EvLog INFO (MsgSuccessful 0) ∈ trace (snd run))
  ∧ ¬ (EvLog INFO (MsgFailed 0) ∈ trace (snd run)).
Proof.
  intros E run.
  assert (Htr : trace (snd run)
    = [EvLog INFO (MsgStarting (py "DOCS"));
       EvGet (listing_request Scenario.docs 100 0)
         (GetResponse (Scenario.listing_of []));
       EvLog INFO (MsgFetched 0 0);
       EvLog INFO (MsgTotalPagesFound 0);
       EvLog ERROR MsgNoPagesFound]) by reflexivity.
  split_and!; [reflexivity|reflexivity|..]; rewrite Htr.
  - set_solver.
  - intros H. repeat (apply elem_of_cons in H as [H|H]; [discriminate|]).
    by apply elem_of_nil in H.
  - intros H. repeat (apply elem_of_cons in H as [H|H]; [discriminate|]).
    by apply elem_of_nil in H.
Qed.

(** C4 (amended): take a first run that lists a non-empty space, counts no
    failure and saves no page as raw HTML, and a second run, started from
    the files the first one left, whose listing returns the same pages.
    The second run skips every page: after its listing it makes no request
    and no write, it leaves the files as they were, and its summary counts
    every page as successful and none as failed. *)
Theorem C4_second_run_skips_stored_pages (E : Env)
    (self : ConfluenceDownloader) (fuel : nat) (pages : list Page)
    (w0 wa wb wc : world) (s1 : nat) :
  pages ≠ [] →
  get_space_pages E self fuel 100
    (emit (EvLog INFO (MsgStarting (space_key self))) w0) = (Ok pages, wa) →
  download_loop E self (length pages) pages 1 0 0 wa = (Ok (s1, 0%nat), wb) →
  ¬ Exists saved_as_html (new_events wa wb) →
  let w1 := emits (summary_events self s1 0) wb in
  get_space_pages E self fuel 100
    (emit (EvLog INFO (MsgStarting (space_key self))) w1) = (Ok pages, wc) →
  download_all_pages E self fuel w0 = (Ok tt, w1)
  ∧ ∃ w2,
      download_all_pages E self fuel w1 = (Ok tt, w2)
      ∧ fs w2 = fs w1
      ∧ clock w2 = clock wc
      ∧ new_events wc w2
        = skip_events (length pages) 1 pages
          ++ summary_events self (length pages) 0.
Proof.
  intros Hne Hlist1 Hloop Hno w1 Hlist2.
  destruct pages as [|page rest]; [done|].
  split.
  - unfold download_all_pages.
    unfold mbind at 1 2, M_bind at 1 2, bind at 1 2, log at 1.
    rewrite Hlist1.
    unfold mbind at 1, M_bind at 1, bind at 1. rewrite Hloop.
    unfold_monad. reflexivity.
  - assert (Hdisk : Forall (fun p => on_disk wc (pdf_path self p))
                      (page :: rest)).
    { destruct (download_loop_outcome E self _ _ _ _ _ _ _ _ _ Hloop)
        as (_ & _ & evs & Htr & Hall).
      rewrite (new_events_app _ _ _ Htr) in Hno.
      specialize (Hall eq_refl Hno).
      apply get_space_pages_fs in Hlist2.
      eapply Forall_impl; [exact Hall|]. intros p Hp.
      unfold on_disk in *. rewrite Hlist2. exact Hp. }
    unfold download_all_pages.
    unfold mbind at 1 2, M_bind at 1 2, bind at 1 2, log at 1.
    rewrite Hlist2.
    unfold mbind at 1, M_bind at 1, bind at 1.
    rewrite download_loop_all_on_disk by done.
    unfold_monad. eexists. split; [reflexivity|]. world_cbn.
    rewrite fs_emits, clock_emits.
    split; [by apply get_space_pages_fs in Hlist2|]. split; [done|].
    unfold new_events. world_cbn. rewrite trace_emits, <- !app_assoc.
    by rewrite drop_app_length.
Qed.

Lemma C4_second_run_skips_stored_pages_witness :
  let pages := [Scenario.intro; Scenario.setup] in
  let E := mkEnv (Scenario.remote Scenario.docs 100 [pages]
                    (GetResponse Scenario.pdf_response)
                    (GetResponse Scenario.server_error)
                    Scenario.doc_without_body)
                 Scenario.disk_ok Scenario.renderer_missing in
  let self := Scenario.docs in
  let w0 := Scenario.fresh in
  let wa := snd (get_space_pages E self 1 100
                   (emit (EvLog INFO (MsgStarting (space_key self))) w0)) in
  let wb := snd (download_loop E self 2 pages 1 0 0 wa) in
  let w1 := emits (summary_events self 2 0) wb in
  let wc := snd (get_space_pages E self 1 100
                   (emit (EvLog INFO (MsgStarting (space_key self))) w1)) in
  download_all_pages E self 1 w0 = (Ok tt, w1)
  ∧ ∃ w2,
      download_all_pages E self 1 w1 = (Ok tt, w2)
      ∧ fs w2 = fs w1
      ∧ clock w2 = clock wc
      ∧ new_events wc w2
        = skip_events 2 1 pages ++ summary_events self 2 0.
Proof.
  intros pages E self w0 wa wb w1 wc.
  apply (C4_second_run_skips_stored_pages E self 1 pages w0 wa wb wc 2).
  - discriminate.
  - reflexivity.
  - reflexivity.
  - assert (Hev : new_events wa wb
      = [EvLog INFO (MsgProcessing 1 2);
         EvLog INFO (MsgDownloadingPage (py "Intro") (py "101"));
         EvSleep 1000;
         EvGet (export_request_1 self (py "101"))
           (GetResponse Scenario.pdf_response);
         EvWrite (pdf_path self Scenario.intro) (Binary Scenario.pdf_bytes)
           WriteOk;
         EvLog INFO (MsgDownloadedPdf (py "Intro_101.pdf"));
         EvLog INFO (MsgProcessing 2 2);
         EvLog INFO (MsgDownloadingPage (py "Setup Guide") (py "102"));
         EvSleep 1000;
         EvGet (export_request_1 self (py "102"))
           (GetResponse Scenario.pdf_response);
         EvWrite (pdf_path self Scenario.setup) (Binary Scenario.pdf_bytes)
           WriteOk;
         EvLog INFO (MsgDownloadedPdf (py "Setup Guide_102.pdf"))])
      by reflexivity.
    rewrite Hev. intros H.
    repeat (apply Exists_cons in H as [[name Hname]|H]; [discriminate|]).
    by apply Exists_nil in H.
  - reflexivity.
Defined.

(** The second run does not skip a page without a PDF.  A page that failed
    in the first run is requested again and, the remote being unchanged,
    fails again, so the second run reports it failed; and with no renderer
    the first run saves the page as [.html] and reports it successful, and
    the second run requests it again and writes the file again. *)
Lemma C4_counterexample :
  let self := Scenario.docs in
  let get d := Scenario.remote self 100 [[Scenario.setup]]
                 (GetResponse Scenario.login_page)
                 (GetResponse Scenario.server_error) d in
  let requests :=
    [listing_request self 100 0;
     export_request_1 self (py "102");
     export_request_2 self (py "102");
     content_request self (py "102")] in
  let E := mkEnv (get Scenario.doc_without_body)
                 Scenario.disk_ok Scenario.renderer_ok in
  let run1 := download_all_pages E self 1 Scenario.fresh in
  let run2 := download_all_pages E self 1 (snd run1) in
  let E' := mkEnv (get (Scenario.doc_with_html (py "<p>steps</p>")))
                  Scenario.disk_ok Scenario.renderer_missing in
  let run1' := download_all_pages E' self 1 Scenario.fresh in
  let run2' := download_all_pages E' self 1 (snd run1') in
  let raw := Text (py "<h1>Setup Guide</h1><p>steps</p>") in
  (fst run1 = Ok tt
   ∧ fst run2 = Ok tt
   ∧ requests_of (new_events (snd run1) (snd run2)) = requests
   ∧ drop 12 (new_events (snd run1) (snd run2))
     = summary_events self 0 1)
  ∧ (fst run1' = Ok tt
     ∧ drop 15 (trace (snd run1')) = summary_events self 1 0
     ∧ fs (snd run1') = {[ html_path self Scenario.setup := raw ]}
     ∧ fst run2' = Ok tt
     ∧ fs (snd run2') = fs (snd run1')
     ∧ requests_of (new_events (snd run1') (snd run2')) = requests
     ∧ filter (fun ev => is_write ev = true)
         (new_events (snd run1') (snd run2'))
       = [EvRender
            (styled_html
               (html_with_title (py "Setup Guide") (py "<p>steps</p>")))
            (base_url self) (pdf_path self Scenario.setup) ImportFails;
          EvWrite (html_path self Scenario.setup) raw WriteOk]).
Proof.
  intros self get requests E run1 run2 E' run1' run2' raw.
  split; split_and!; reflexivity.
Qed.
